(** * Hydra-ROS reconstruction visualizer: marker synchronisation

    A shallow embedding of [ReconstructionVisualizer]
    (hydra_ros/src/visualizer/reconstruction_visualizer.cpp) together with
    the two publisher helpers it relies on, and the properties of the
    incremental add/delete protocol it speaks to a retained-mode display.

    Conventions.
    - A [size_t] counter is a [nat] (it only ever holds container sizes);
      a marker id is the [int32] field of [visualization_msgs::Marker],
      kept as a [Z] with the narrowing conversion written out.
    - [std::set<int>] is a [gset Z]; iterating over it visits the elements
      in ascending order ([set_iter]).
    - [uint64_t] timestamps and [ros::Time] stamps are nanosecond counts.
    - A member function is a computation in the monad [ST]: it threads the
      visualizer's mutable members, may throw, and records what it emits
      (callbacks run by the publisher, messages handed to a transport, log
      lines).
    - [config_] is read-only within a call and is passed to each one; the
      reconfiguration callbacks, which replace parts of it between calls,
      and the scoped timer are left out.
    - The builders of visualizer_utilities and gvd_visualization_utilities,
      and the map and graph types they consume, are parameters
      ([Externals]). *)

From Stdlib Require Import QArith_base.
From stdpp Require Import base list strings gmap sorting pretty.

Local Open Scope string_scope.
Local Open Scope list_scope.
Local Open Scope Z_scope.

(** ** Messages *)

Record Header := mkHeader {
  frame_id : string;
  stamp : N
}.

(** The value of a default-constructed [std_msgs::Header]. *)
Definition default_header : Header := {| frame_id := ""; stamp := 0%N |}.

Inductive MarkerAction := ADD | MODIFY | DELETE | DELETEALL.

(** Coordinates are never inspected by the visualizer, only counted. *)
Definition Point : Type := Z * Z * Z.

Record Marker := mkMarker {
  m_header : Header;
  m_ns : string;
  m_id : Z;
  m_action : MarkerAction;
  m_points : list Point
}.

(** The value of a default-constructed [visualization_msgs::Marker]. *)
Definition default_marker : Marker :=
  {| m_header := default_header; m_ns := ""; m_id := 0; m_action := ADD; m_points := [] |}.

Definition MarkerArray : Type := list Marker.

Global Instance Header_eq_dec : EqDecision Header.
Proof. solve_decision. Defined.
Global Instance MarkerAction_eq_dec : EqDecision MarkerAction.
Proof. solve_decision. Defined.
Global Instance Marker_eq_dec : EqDecision Marker.
Proof. solve_decision. Defined.

Definition set_header (h : Header) (m : Marker) : Marker :=
  {| m_header := h; m_ns := m_ns m; m_id := m_id m; m_action := m_action m;
     m_points := m_points m |}.

Definition set_ns (s : string) (m : Marker) : Marker :=
  {| m_header := m_header m; m_ns := s; m_id := m_id m; m_action := m_action m;
     m_points := m_points m |}.

(** [Marker delete_label; delete_label.action = Marker::DELETE;
    delete_label.id = id; delete_label.ns = ns;] *)
Definition delete_label (i : Z) (s : string) : Marker :=
  {| m_header := m_header default_marker; m_ns := s; m_id := i; m_action := DELETE;
     m_points := m_points default_marker |}.

(** Narrowing of a [size_t] value to the [int32] id field. *)
Definition wrap32 (z : Z) : Z := (z + 2 ^ 31) mod 2 ^ 32 - 2 ^ 31.
Definition int32_of_size_t (n : nat) : Z := wrap32 (Z.of_nat n).

(** Ascending traversal of a [std::set<int>]. *)
Definition set_iter (s : gset Z) : list Z := merge_sort Z.le (elements s).

(** ** Visualizer state and the effect monad *)

Record VizState := mkViz {
  previous_spheres_ : nat;
  previous_labels_ : gset Z;
  published_gvd_graph_ : bool;
  published_gvd_clusters_ : bool
}.

Definition with_previous_spheres (n : nat) (v : VizState) : VizState :=
  {| previous_spheres_ := n; previous_labels_ := previous_labels_ v;
     published_gvd_graph_ := published_gvd_graph_ v;
     published_gvd_clusters_ := published_gvd_clusters_ v |}.

Definition with_previous_labels (s : gset Z) (v : VizState) : VizState :=
  {| previous_spheres_ := previous_spheres_ v; previous_labels_ := s;
     published_gvd_graph_ := published_gvd_graph_ v;
     published_gvd_clusters_ := published_gvd_clusters_ v |}.

Definition with_published_gvd_graph (b : bool) (v : VizState) : VizState :=
  {| previous_spheres_ := previous_spheres_ v; previous_labels_ := previous_labels_ v;
     published_gvd_graph_ := b;
     published_gvd_clusters_ := published_gvd_clusters_ v |}.

Definition with_published_gvd_clusters (b : bool) (v : VizState) : VizState :=
  {| previous_spheres_ := previous_spheres_ v; previous_labels_ := previous_labels_ v;
     published_gvd_graph_ := published_gvd_graph_ v;
     published_gvd_clusters_ := b |}.

Inductive Exn := out_of_range.

Inductive Outcome (A : Type) :=
| Ok (a : A)
| Throw (e : Exn).
Arguments Ok {A} a.
Arguments Throw {A} e.

Inductive Severity := INFO | WARNING | ERROR.

(** What a callback may emit: glog lines only. *)
Definition LogLine : Type := Severity * string.

(** A message handed to a transport: the gate has one overload for a single
    marker and one for a marker array. *)
Inductive Msg :=
| OneMarker (m : Marker)
| Markers (ms : MarkerArray).

(** What a member function may emit. [Invoked] marks the gate running a
    callback, [Sent] a message handed to the transport of a topic. *)
Inductive Event :=
| Invoked (topic : string)
| Sent (topic : string) (msg : Msg)
| Logged (line : LogLine).

Record Res (E A : Type) := mkRes {
  out : Outcome A;
  st : VizState;
  evs : list E
}.
Arguments mkRes {E A} out st evs.
Arguments out {E A} r.
Arguments st {E A} r.
Arguments evs {E A} r.

Definition ST (E A : Type) : Type := VizState → Res E A.

Definition ret {E A} (a : A) : ST E A := λ v, mkRes (Ok a) v [].

Definition bind {E A B} (m : ST E A) (k : A → ST E B) : ST E B :=
  λ v, let r := m v in
       match out r with
       | Ok a => let r' := k a (st r) in mkRes (out r') (st r') (evs r ++ evs r')
       | Throw e => mkRes (Throw e) (st r) (evs r)
       end.

Definition throw {E A} (e : Exn) : ST E A := λ v, mkRes (Throw e) v [].
Definition get {E} : ST E VizState := λ v, mkRes (Ok v) v [].
Definition modify {E} (f : VizState → VizState) : ST E unit :=
  λ v, mkRes (Ok tt) (f v) [].
Definition emit {E} (e : E) : ST E unit := λ v, mkRes (Ok tt) v [e].

Notation "'do' x <- c1 ; c2" := (bind c1 (λ x, c2))
  (at level 10, x name, c1 at level 100, c2 at level 200).
Notation "c1 ;; c2" := (bind c1 (λ _, c2))
  (at level 100, c2 at level 200, right associativity).

(** Member functions and gate callbacks. *)
Definition M (A : Type) : Type := ST Event A.
Definition Cb (A : Type) : Type := ST LogLine A.

Definition LOG {E} (wrap : LogLine → E) (sev : Severity) (text : string) : ST E unit :=
  emit (wrap (sev, text)).

(** ** External collaborators

    Types and functions of Hydra, voxblox and the visualizer utilities that
    the file under study only calls. They are taken as parameters. *)

(** [double] values are only handed through to the builders. *)
Definition double : Type := Q.

(** The fields of [LayerConfig] that the visualizer reads or overrides. *)
Record LayerConfig := mkLayerConfig {
  use_label : bool;
  use_sphere_marker : bool;
  marker_scale : double;
  marker_alpha : double
}.

Record Externals := mkExternals {
  GvdLayer : Type;
  SceneGraphLayer : Type;
  SceneGraphNode : Type;
  GvdGraph : Type;
  GvdVisualizerConfig : Type;
  ColormapConfig : Type;
  VisualizerConfig : Type;
  CompressedNodeInfo : Type;
  CompressedRemapping : Type;
  (* graph.nodes(), in the iteration order of the id-keyed map *)
  nodes : SceneGraphLayer → list SceneGraphNode;
  (* graph.edges().empty() *)
  edges_empty : SceneGraphLayer → bool;
  (* GvdGraph::empty() *)
  gvd_graph_empty : GvdGraph → bool;
  makeEsdfMarker : GvdVisualizerConfig → ColormapConfig → GvdLayer → Marker;
  makeGvdMarker : GvdVisualizerConfig → ColormapConfig → GvdLayer → Marker;
  makeSurfaceVoxelMarker : GvdVisualizerConfig → ColormapConfig → GvdLayer → Marker;
  makeErrorMarker :
    GvdVisualizerConfig → ColormapConfig → GvdLayer → GvdLayer → double → Marker;
  makeBlocksMarker : GvdLayer → double → Marker;
  makeCentroidMarkers :
    Header → LayerConfig → SceneGraphLayer → VisualizerConfig → string →
    ColormapConfig → Marker;
  (* the overload taking a colour function, called with NodeColor::Zero() *)
  makeCentroidMarkersZero :
    Header → LayerConfig → SceneGraphLayer → VisualizerConfig → string → Marker;
  (* its colour argument is NodeColor::Zero() at both call sites *)
  makeLayerEdgeMarkers :
    Header → LayerConfig → SceneGraphLayer → VisualizerConfig → string → Marker;
  makePlaceSpheres : Header → SceneGraphLayer → string → double → MarkerArray;
  makeTextMarker :
    Header → LayerConfig → SceneGraphNode → VisualizerConfig → string → Marker;
  makeGvdGraphMarkers :
    GvdGraph → GvdVisualizerConfig → ColormapConfig → string → MarkerArray;
  showGvdClusters :
    GvdGraph → CompressedNodeInfo → CompressedRemapping → GvdVisualizerConfig →
    ColormapConfig → string → MarkerArray;
  makeDeleteMarker : Header → nat → string → Marker
}.

(** ** The publish gate ([MarkerGroupPub::publish]) *)

(** Modelled from the spec: [MarkerGroupPub] is defined elsewhere in the
    repository (hydra_ros/utils) and only called here. Section 4.2: the gate invokes the producer exactly
    once, synchronously, on a payload it owns, and forwards the built payload
    to the channel only if the producer returned true. An exception raised by
    the producer propagates to the caller. *)
Definition publish {P : Type} (wrap : P → Msg) (init : P)
    (name : string) (func : P → Cb (bool * P)) : M unit :=
  λ v, let r := func init v in
       let pre := Invoked name :: map Logged (evs r) in
       match out r with
       | Ok (true, p) => mkRes (Ok tt) (st r) (pre ++ [Sent name (wrap p)])
       | Ok (false, _) => mkRes (Ok tt) (st r) pre
       | Throw e => mkRes (Throw e) (st r) pre
       end.

Definition publish_marker : string → (Marker → Cb (bool * Marker)) → M unit :=
  publish OneMarker default_marker.

Definition publish_array
    : string → (MarkerArray → Cb (bool * MarkerArray)) → M unit :=
  publish Markers [].

(** [markers.at(i).header = header]: bounds-checked element access. *)
Definition at_set_header {E} (i : nat) (h : Header) (markers : MarkerArray)
    : ST E MarkerArray :=
  match markers !! i with
  | Some m => ret (<[i := set_header h m]> markers)
  | None => throw out_of_range
  end.

(** ** The visualizer *)

Section Visualizer.

Variable X : Externals.

(** [ReconstructionVisualizerConfig], with the dynamically reconfigured
    parts ([graph_layer], [graph], [gvd], [colormap]) it carries. *)
Record Config := mkConfig {
  world_frame : string;
  topology_marker_ns : string;
  show_block_outlines : bool;
  use_gvd_block_outlines : bool;
  outline_scale : double;
  graph_layer : LayerConfig;
  graph_config : VisualizerConfig X;
  gvd_config : GvdVisualizerConfig X;
  colormap : ColormapConfig X
}.

(** What a [const GraphExtractorInterface*] can point to. *)
Inductive Extractor :=
| GenericExtractor (graph : SceneGraphLayer X) (gvd_graph : GvdGraph X)
| CompressionExtractor (graph : SceneGraphLayer X) (gvd_graph : GvdGraph X)
    (info : CompressedNodeInfo X) (remapping : CompressedRemapping X).

Definition getGraph (e : Extractor) : SceneGraphLayer X :=
  match e with
  | GenericExtractor g _ => g
  | CompressionExtractor g _ _ _ => g
  end.

Definition getGvdGraph (e : Extractor) : GvdGraph X :=
  match e with
  | GenericExtractor _ g => g
  | CompressionExtractor _ g _ _ => g
  end.

(** [dynamic_cast<const CompressionGraphExtractor*>(extractor)]: null on a
    null pointer and on any other dynamic type. *)
Definition as_compression (extractor : option Extractor)
    : option (GvdGraph X * CompressedNodeInfo X * CompressedRemapping X) :=
  match extractor with
  | Some (CompressionExtractor _ g info remapping) => Some (g, info, remapping)
  | _ => None
  end.

(** The constructor's member initialisers. [published_gvd_clusters_] is not
    among them; its initial value comes from the class declaration. *)
Definition initial_state (clusters0 : bool) : VizState :=
  {| previous_spheres_ := 0; previous_labels_ := ∅;
     published_gvd_graph_ := false; published_gvd_clusters_ := clusters0 |}.

Variable config_ : Config.

(** Shared tail of the three slice callbacks:
    [if (msg.points.size()) return true; else { LOG(INFO) << text; return false; }] *)
Definition worth_sending (text : string) (msg : Marker) : Cb (bool * Marker) :=
  if negb (length (m_points msg) =? 0)%nat then ret (true, msg)
  else LOG (λ l, l) INFO text ;; ret (false, msg).

Definition visualizeGvd (header : Header) (gvd : GvdLayer X) : M unit :=
  publish_marker "esdf_viz" (λ _,
    let msg := makeEsdfMarker X (gvd_config config_) (colormap config_) gvd in
    let msg := set_header header msg in
    let msg := set_ns "gvd_visualizer" msg in
    worth_sending "visualizing empty ESDF slice" msg) ;;
  publish_marker "gvd_viz" (λ _,
    let msg := makeGvdMarker X (gvd_config config_) (colormap config_) gvd in
    let msg := set_header header msg in
    let msg := set_ns "gvd_visualizer" msg in
    worth_sending "visualizing empty GVD slice" msg) ;;
  publish_marker "surface_viz" (λ _,
    let msg := makeSurfaceVoxelMarker X (gvd_config config_) (colormap config_) gvd in
    let msg := set_header header msg in
    let msg := set_ns "gvd_visualizer" msg in
    worth_sending "visualizing empty surface slice" msg).

Definition visualizeBlocks (header : Header) (gvd : GvdLayer X) : M unit :=
  publish_marker "voxel_block_viz" (λ _,
    let msg := makeBlocksMarker X gvd (outline_scale config_) in
    let msg := set_header header msg in
    let msg := set_ns "topology_server_blocks" msg in
    ret (true, msg)).

Definition visualizeError (timestamp_ns : N) (lhs rhs : GvdLayer X)
    (threshold : double) : M unit :=
  publish_marker "error_viz" (λ _,
    let msg :=
      makeErrorMarker X (gvd_config config_) (colormap config_) lhs rhs threshold in
    let msg :=
      set_header {| frame_id := world_frame config_; stamp := timestamp_ns |} msg in
    worth_sending "no voxels with error above threshold" msg).

Definition publishFreespace (header : Header) (graph : SceneGraphLayer X) : M unit :=
  let label_ns := topology_marker_ns config_ +:+ "_freespace" in
  let spheres := makePlaceSpheres X header graph label_ns (15 # 100)%Q in
  do v <- get;
  let delete_markers :=
    map (λ id, delete_label (int32_of_size_t id) label_ns)
        (seq 0 (previous_spheres_ v)) in
  modify (with_previous_spheres (length spheres)) ;;
  publish_array "freespace_viz" (λ _, ret (true, delete_markers)) ;;
  publish_array "freespace_viz" (λ _, ret (true, spheres)) ;;
  publish_array "freespace_graph_viz" (λ markers,
    let node_ns := topology_marker_ns config_ +:+ "_freespace_nodes" in
    let freespace_conf :=
      {| use_label := use_label (graph_layer config_);
         use_sphere_marker := false;
         marker_scale := (8 # 100)%Q;
         marker_alpha := (5 # 10)%Q |} in
    let node_marker :=
      makeCentroidMarkersZero X header freespace_conf graph (graph_config config_)
        node_ns in
    let markers := markers ++ [node_marker] in
    let markers :=
      if negb (edges_empty X graph) then
        markers ++ [makeLayerEdgeMarkers X header (graph_layer config_) graph
                      (graph_config config_)
                      (topology_marker_ns config_ +:+ "_freespace_edges")]
      else markers in
    ret (true, markers)).

(** The labels built by the first loop of [publishGraphLabels]. *)
Definition graph_labels (header : Header) (graph : SceneGraphLayer X) : MarkerArray :=
  let label_ns := topology_marker_ns config_ +:+ "_labels" in
  map (λ node, makeTextMarker X header (graph_layer config_) node
                 (graph_config config_) label_ns)
      (nodes X graph).

Definition publishGraphLabels (header : Header) (graph : SceneGraphLayer X) : M unit :=
  if negb (use_label (graph_layer config_)) then ret tt
  else
    let label_ns := topology_marker_ns config_ +:+ "_labels" in
    let labels := graph_labels header graph in
    let current_ids : gset Z := list_to_set (map m_id labels) in
    do v <- get;
    let ids_to_delete : gset Z :=
      filter (λ previous, previous ∉ current_ids) (previous_labels_ v) in
    modify (with_previous_labels current_ids) ;;
    let delete_markers :=
      map (λ to_delete, delete_label to_delete label_ns) (set_iter ids_to_delete) in
    publish_array "graph_label_viz" (λ _, ret (true, delete_markers)) ;;
    publish_array "graph_label_viz" (λ _, ret (true, labels)).

Definition visualizeGraph (header : Header) (graph : SceneGraphLayer X) : M unit :=
  if (length (nodes X graph) =? 0)%nat then
    LOG Logged INFO "visualizing empty graph!"
  else
    publish_array "graph_viz" (λ markers,
      let node_ns := topology_marker_ns config_ +:+ "_nodes" in
      let node_marker :=
        makeCentroidMarkers X header (graph_layer config_) graph (graph_config config_)
          node_ns (colormap config_) in
      let markers := markers ++ [node_marker] in
      let markers :=
        if negb (edges_empty X graph) then
          markers ++ [makeLayerEdgeMarkers X header (graph_layer config_) graph
                        (graph_config config_)
                        (topology_marker_ns config_ +:+ "_edges")]
        else markers in
      ret (true, markers)) ;;
    publishFreespace header graph ;;
    publishGraphLabels header graph.

(** [markers.markers.at(0).header = header; markers.markers.at(1).header = header;] *)
Definition stamp_first_two {E} (header : Header) (markers : MarkerArray)
    : ST E MarkerArray :=
  do markers <- at_set_header 0 header markers;
  at_set_header 1 header markers.

Definition gvd_graph_callback (header : Header) (graph : GvdGraph X)
    (markers : MarkerArray) : Cb (bool * MarkerArray) :=
  let ns := topology_marker_ns config_ +:+ "_gvd_graph" in
  do v <- get;
  if gvd_graph_empty X graph && published_gvd_graph_ v then
    modify (with_published_gvd_graph false) ;;
    let markers := markers ++ [makeDeleteMarker X header 0 (ns +:+ "_nodes")] in
    let markers := markers ++ [makeDeleteMarker X header 0 (ns +:+ "_edges")] in
    ret (true, markers)
  else
    let markers :=
      makeGvdGraphMarkers X graph (gvd_config config_) (colormap config_) ns in
    if (length markers =? 0)%nat then ret (false, markers)
    else
      do markers <- stamp_first_two header markers;
      modify (with_published_gvd_graph true) ;;
      ret (true, markers).

Definition visualizeGvdGraph (header : Header) (graph : GvdGraph X) : M unit :=
  publish_array "gvd_graph_viz" (gvd_graph_callback header graph).

(** The callback handed to the gate for "gvd_cluster_viz" in [visualize]. *)
Definition gvd_cluster_callback (header : Header)
    (compression : GvdGraph X * CompressedNodeInfo X * CompressedRemapping X)
    (markers : MarkerArray) : Cb (bool * MarkerArray) :=
  let '(gvd_graph, info, remapping) := compression in
  let ns := "gvd_cluster_graph" in
  do v <- get;
  if gvd_graph_empty X gvd_graph && published_gvd_clusters_ v then
    modify (with_published_gvd_graph false) ;;
    let markers := markers ++ [makeDeleteMarker X header 0 (ns +:+ "_nodes")] in
    let markers := markers ++ [makeDeleteMarker X header 0 (ns +:+ "_edges")] in
    ret (true, markers)
  else
    let markers :=
      showGvdClusters X gvd_graph info remapping (gvd_config config_)
        (colormap config_) ns in
    if (length markers =? 0)%nat then ret (false, markers)
    else
      do markers <- stamp_first_two header markers;
      modify (with_published_gvd_clusters true) ;;
      ret (true, markers).

Definition visualize (timestamp_ns : N) (gvd : GvdLayer X)
    (extractor : option Extractor) : M unit :=
  let header := {| frame_id := world_frame config_; stamp := timestamp_ns |} in
  visualizeGvd header gvd ;;
  match extractor with
  | Some e =>
      visualizeGraph header (getGraph e) ;;
      visualizeGvdGraph header (getGvdGraph e)
  | None => ret tt
  end ;;
  (if show_block_outlines config_ then visualizeBlocks header gvd else ret tt) ;;
  match as_compression extractor with
  | None => ret tt
  | Some compression =>
      publish_array "gvd_cluster_viz" (gvd_cluster_callback header compression)
  end.

End Visualizer.

Arguments world_frame {X} c.
Arguments topology_marker_ns {X} c.
Arguments show_block_outlines {X} c.
Arguments use_gvd_block_outlines {X} c.
Arguments outline_scale {X} c.
Arguments graph_layer {X} c.
Arguments graph_config {X} c.
Arguments gvd_config {X} c.
Arguments colormap {X} c.
Arguments GenericExtractor {X} graph gvd_graph.
Arguments CompressionExtractor {X} graph gvd_graph info remapping.

(** ** Observing a run *)

Definition msg_markers (msg : Msg) : MarkerArray :=
  match msg with
  | OneMarker m => [m]
  | Markers ms => ms
  end.

(** The messages handed to the transport of [topic], in order. *)
Fixpoint sent_on (topic : string) (es : list Event) : list Msg :=
  match es with
  | [] => []
  | Sent t msg :: es' =>
      if decide (t = topic) then msg :: sent_on topic es' else sent_on topic es'
  | _ :: es' => sent_on topic es'
  end.

(** The topics whose callback the gate ran, in order. *)
Definition topics_invoked (es : list Event) : list string :=
  flat_map (λ e, match e with Invoked t => [t] | _ => [] end) es.

(** Every hand-over to a transport, in order. *)
Definition transport_sends (es : list Event) : list (string * Msg) :=
  flat_map (λ e, match e with Sent t msg => [(t, msg)] | _ => [] end) es.

(** Every marker that reached any transport. *)
Definition emitted_markers (es : list Event) : MarkerArray :=
  flat_map (λ e, match e with Sent _ msg => msg_markers msg | _ => [] end) es.

Definition is_delete (m : Marker) : bool :=
  match m_action m with DELETE => true | _ => false end.

(** The ids retracted on [topic]: the DELETE markers among what was sent. *)
Definition deleted_ids (topic : string) (es : list Event) : list Z :=
  map m_id (filter (λ m, is_delete m = true) (flat_map msg_markers (sent_on topic es))).

(** ** Names for what the member functions build

    The arrays and sets that the bodies above compute in passing, named so
    that statements can refer to them. *)

Section Derived.

Variable X : Externals.
Variable config_ : Config X.

(** The set [current_ids] that one call of [publishGraphLabels] computes. *)
Definition current_ids (header : Header) (graph : SceneGraphLayer X) : gset Z :=
  list_to_set (map m_id (graph_labels X config_ header graph)).

Definition label_ns : string := topology_marker_ns config_ +:+ "_labels".

(** The delete batch of [publishGraphLabels] for a set of ids. *)
Definition label_deletions (ids : gset Z) : MarkerArray :=
  map (λ to_delete, delete_label to_delete label_ns) (set_iter ids).

(** A sequence of calls of [publishGraphLabels], one per tick, each with its
    header and graph. *)
Definition label_step (v : VizState) (t : Header * SceneGraphLayer X)
    : Res Event unit :=
  publishGraphLabels X config_ (fst t) (snd t) v.

Definition labels_after (ticks : list (Header * SceneGraphLayer X)) (v : VizState)
    : VizState :=
  foldl (λ v t, st (label_step v t)) v ticks.

(** [S_ ticks i]: the current-id set of the i-th call, counted from 1, with
    the empty set at 0. *)
Definition S_ (ticks : list (Header * SceneGraphLayer X)) (i : nat) : gset Z :=
  match i with
  | O => ∅
  | S j => match ticks !! j with
           | Some t => current_ids (fst t) (snd t)
           | None => ∅
           end
  end.

Definition freespace_ns : string := topology_marker_ns config_ +:+ "_freespace".

Definition freespace_spheres (header : Header) (graph : SceneGraphLayer X)
    : MarkerArray :=
  makePlaceSpheres X header graph freespace_ns (15 # 100)%Q.

(** The delete batch built by the loop over [0, previous_spheres_). *)
Definition freespace_deletions (prior : nat) : MarkerArray :=
  map (λ id, delete_label (int32_of_size_t id) freespace_ns) (seq 0 prior).

Definition freespace_graph_markers (header : Header) (graph : SceneGraphLayer X)
    : MarkerArray :=
  let freespace_conf :=
    {| use_label := use_label (graph_layer config_); use_sphere_marker := false;
       marker_scale := (8 # 100)%Q; marker_alpha := (5 # 10)%Q |} in
  makeCentroidMarkersZero X header freespace_conf graph (graph_config config_)
    (topology_marker_ns config_ +:+ "_freespace_nodes")
  :: (if negb (edges_empty X graph) then
        [makeLayerEdgeMarkers X header (graph_layer config_) graph
           (graph_config config_) (topology_marker_ns config_ +:+ "_freespace_edges")]
      else []).

Definition slice_marker (header : Header) (m : Marker) : Marker :=
  set_ns "gvd_visualizer" (set_header header m).

Definition esdf_marker (header : Header) (gvd : GvdLayer X) : Marker :=
  slice_marker header (makeEsdfMarker X (gvd_config config_) (colormap config_) gvd).
Definition gvd_marker (header : Header) (gvd : GvdLayer X) : Marker :=
  slice_marker header (makeGvdMarker X (gvd_config config_) (colormap config_) gvd).
Definition surface_marker (header : Header) (gvd : GvdLayer X) : Marker :=
  slice_marker header
    (makeSurfaceVoxelMarker X (gvd_config config_) (colormap config_) gvd).

Definition blocks_marker (header : Header) (gvd : GvdLayer X) : Marker :=
  set_ns "topology_server_blocks"
    (set_header header (makeBlocksMarker X gvd (outline_scale config_))).

Definition graph_markers (header : Header) (graph : SceneGraphLayer X) : MarkerArray :=
  makeCentroidMarkers X header (graph_layer config_) graph (graph_config config_)
    (topology_marker_ns config_ +:+ "_nodes") (colormap config_)
  :: (if negb (edges_empty X graph) then
        [makeLayerEdgeMarkers X header (graph_layer config_) graph
           (graph_config config_) (topology_marker_ns config_ +:+ "_edges")]
      else []).

Definition gvd_graph_markers (graph : GvdGraph X) : MarkerArray :=
  makeGvdGraphMarkers X graph (gvd_config config_) (colormap config_)
    (topology_marker_ns config_ +:+ "_gvd_graph").

Definition cluster_markers (graph : GvdGraph X) (info : CompressedNodeInfo X)
    (remapping : CompressedRemapping X) : MarkerArray :=
  showGvdClusters X graph info remapping (gvd_config config_) (colormap config_)
    "gvd_cluster_graph".

(** The topics whose callbacks [visualizeGraph] runs. *)
Definition graph_topics (graph : SceneGraphLayer X) : list string :=
  if (length (nodes X graph) =? 0)%nat then []
  else ["graph_viz"; "freespace_viz"; "freespace_viz"; "freespace_graph_viz"]
       ++ (if use_label (graph_layer config_)
           then ["graph_label_viz"; "graph_label_viz"] else []).

(** The reading of "minimal delete set" for one call of [publishFreespace]:
    the retracted ids are exactly those of [current, prior), none when the
    count did not shrink. *)
Definition freespace_minimal_delete (header : Header) (graph : SceneGraphLayer X)
    (v : VizState) : Prop :=
  let r := publishFreespace X config_ header graph v in
  let current := length (freespace_spheres header graph) in
  ∀ z, z ∈ deleted_ids "freespace_viz" (evs r)
       ↔ Z.of_nat current ≤ z < Z.of_nat (previous_spheres_ v).

End Derived.

(** The events of one slice callback behind the gate. *)
Definition slice_events (name text : string) (msg : Marker) : list Event :=
  if negb (length (m_points msg) =? 0)%nat
  then [Invoked name; Sent name (OneMarker msg)]
  else [Invoked name; Logged (INFO, text)].

(** What either graph callback does once its builder has run. *)
Definition stamp_and_flag (header : Header) (markers : MarkerArray)
    (flag : VizState → VizState) (v : VizState) : Res LogLine (bool * MarkerArray) :=
  match markers with
  | [] => mkRes (Ok (false, [])) v []
  | [_] => mkRes (Throw out_of_range) v []
  | m0 :: m1 :: rest =>
      mkRes (Ok (true, set_header header m0 :: set_header header m1 :: rest)) (flag v) []
  end.

(** ** The keyed channel registry ([SemanticRosPublishers]) *)

Module ChannelRegistry.

(** An output channel. [handle] stands for the identity of the publisher
    object: every construction draws a fresh one. *)
Record Channel := mkChannel {
  handle : nat;
  topic : string
}.

Record Registry := mkRegistry {
  topic_prefix : string;
  pubs : gmap N Channel;
  constructed : nat
}.

Definition create (prefix : string) : Registry :=
  {| topic_prefix := prefix; pubs := ∅; constructed := 0 |}.

(** Modelled from the spec: the [SemanticRosPublishers] template
    (hydra_ros/utils/semantic_ros_publishers.h) is only named, as
    [ObjectCloudPub] in the object visualizer's declaration. Section 4.1: the first call for
    a key constructs and caches a new channel whose name is derived from the
    key by stringifying it; later calls return the cached channel; nothing
    is ever evicted. *)
Definition get_or_create (key : N) (r : Registry) : Channel * Registry :=
  match pubs r !! key with
  | Some c => (c, r)
  | None =>
      let c := {| handle := constructed r;
                  topic := topic_prefix r +:+ pretty key |} in
      (c, {| topic_prefix := topic_prefix r;
             pubs := <[key := c]> (pubs r);
             constructed := S (constructed r) |})
  end.

(** The registry after serving a sequence of keys. *)
Definition serve (keys : list N) (r : Registry) : Registry :=
  foldl (λ r key, snd (get_or_create key r)) r keys.

(** The registries a program can hold: built from [create] by calls. *)
Inductive reachable : Registry → Prop :=
| reachable_empty (prefix : string) : reachable (create prefix)
| reachable_call (key : N) (r : Registry) :
    reachable r → reachable (snd (get_or_create key r)).

(** Handles in the cache are below the construction counter and belong to
    one key each. *)
Definition well_formed (r : Registry) : Prop :=
  ∀ k c, pubs r !! k = Some c →
    (handle c < constructed r)%nat
    ∧ ∀ k' c', pubs r !! k' = Some c' → handle c' = handle c → k' = k.

End ChannelRegistry.

(** ** A concrete set of collaborators, for running the visualizer *)

Module Sample.

Definition marker_at (h : Header) (s : string) (i : Z) (pts : list Point) : Marker :=
  {| m_header := h; m_ns := s; m_id := i; m_action := ADD; m_points := pts |}.

Definition two_markers (g : list N) (s : string) : MarkerArray :=
  match g with
  | [] => []
  | _ => [marker_at default_header (s +:+ "_nodes") 0 [];
          marker_at default_header (s +:+ "_edges") 0 []]
  end.

(** A layer is its list of voxels, a scene-graph layer its node ids and
    edges, a GVD graph its node ids. Slice and outline markers carry the
    voxels as points; there is one sphere and one label per node, spheres
    numbered from 0 and labels by node id; a non-empty GVD graph gives a node
    marker and an edge marker. *)
Definition X : Externals :=
  {| GvdLayer := list Point;
     SceneGraphLayer := list N * list (N * N);
     SceneGraphNode := N;
     GvdGraph := list N;
     GvdVisualizerConfig := unit;
     ColormapConfig := unit;
     VisualizerConfig := unit;
     CompressedNodeInfo := unit;
     CompressedRemapping := unit;
     nodes := fst;
     edges_empty := λ g, (length (snd g) =? 0)%nat;
     gvd_graph_empty := λ g, (length g =? 0)%nat;
     makeEsdfMarker := λ _ _ gvd, marker_at default_header "" 0 gvd;
     makeGvdMarker := λ _ _ gvd, marker_at default_header "" 0 gvd;
     makeSurfaceVoxelMarker := λ _ _ gvd, marker_at default_header "" 0 gvd;
     makeErrorMarker := λ _ _ lhs rhs _, marker_at default_header "" 0 (lhs ++ rhs);
     makeBlocksMarker := λ gvd _, marker_at default_header "" 0 gvd;
     makeCentroidMarkers := λ h _ _ _ s _, marker_at h s 0 [];
     makeCentroidMarkersZero := λ h _ _ _ s, marker_at h s 0 [];
     makeLayerEdgeMarkers := λ h _ _ _ s, marker_at h s 0 [];
     makePlaceSpheres := λ h g s _,
       imap (λ i _, marker_at h s (Z.of_nat i) []) (fst g);
     makeTextMarker := λ h _ node _ s, marker_at h s (wrap32 (Z.of_N node)) [];
     makeGvdGraphMarkers := λ g _ _ s, two_markers g s;
     showGvdClusters := λ g _ _ _ _ s, two_markers g s;
     makeDeleteMarker := λ h i s,
       {| m_header := h; m_ns := s; m_id := int32_of_size_t i; m_action := DELETE;
          m_points := [] |} |}.

Definition config_with (labels outlines : bool) : Config X :=
  {| world_frame := "world";
     topology_marker_ns := "topology";
     show_block_outlines := outlines;
     use_gvd_block_outlines := false;
     outline_scale := (1 # 100)%Q;
     graph_layer := {| use_label := labels; use_sphere_marker := true;
                       marker_scale := (1 # 10)%Q; marker_alpha := (1 # 1)%Q |};
     graph_config := (tt : VisualizerConfig X);
     gvd_config := (tt : GvdVisualizerConfig X);
     colormap := (tt : ColormapConfig X) |}.

Definition config (labels : bool) : Config X := config_with labels false.

Definition hdr (t : N) : Header := {| frame_id := "world"; stamp := t |}.

Definition layer (ids : list N) : SceneGraphLayer X := (ids, []).

End Sample.

(** ** Further observers and runs *)

(** The glog lines of a run, in order. *)
Definition logged (es : list Event) : list LogLine :=
  flat_map (λ e, match e with Logged l => [l] | _ => [] end) es.

(** The markers handed to the transport of [topic]. *)
Definition markers_on (topic : string) (es : list Event) : MarkerArray :=
  flat_map msg_markers (sent_on topic es).

(** Calls made one after another; an exception ends the run. *)
Definition run_all (calls : list (M unit)) : M unit :=
  foldr (λ call rest, call ;; rest) (ret tt) calls.

(** The key under which a retained display files a marker. *)
Definition marker_key (m : Marker) : string * Z := (m_ns m, m_id m).

(** The stages of [visualize] that follow [visualizeGvd]. *)
Section Stages.

Variable X : Externals.
Variable config_ : Config X.

Definition graph_stages (header : Header) (extractor : option (Extractor X))
    : M unit :=
  match extractor with
  | Some e =>
      visualizeGraph X config_ header (getGraph X e) ;;
      visualizeGvdGraph X config_ header (getGvdGraph X e)
  | None => ret tt
  end.

Definition blocks_stage (header : Header) (gvd : GvdLayer X) : M unit :=
  if show_block_outlines config_ then visualizeBlocks X config_ header gvd
  else ret tt.

Definition cluster_stage (header : Header) (extractor : option (Extractor X))
    : M unit :=
  match as_compression X extractor with
  | None => ret tt
  | Some compression =>
      publish_array "gvd_cluster_viz"
        (gvd_cluster_callback X config_ header compression)
  end.

End Stages.

(** ** Reconfiguration callbacks and the constructor's overrides *)

(** Access to the fields of [VisualizerConfig] and [GvdVisualizerConfig] that
    the visualizer reads or assigns; the structs are declared elsewhere. *)
Record ConfigFields (X : Externals) := mkConfigFields {
  layer_z_step : VisualizerConfig X → double;
  set_layer_z_step : double → VisualizerConfig X → VisualizerConfig X;
  color_places_by_distance : VisualizerConfig X → bool;
  set_color_places_by_distance : bool → VisualizerConfig X → VisualizerConfig X;
  places_colormap_min_distance : VisualizerConfig X → double;
  set_places_colormap_min_distance :
    double → VisualizerConfig X → VisualizerConfig X;
  places_colormap_max_distance : VisualizerConfig X → double;
  set_places_colormap_max_distance :
    double → VisualizerConfig X → VisualizerConfig X;
  gvd_min_distance : GvdVisualizerConfig X → double;
  gvd_max_distance : GvdVisualizerConfig X → double
}.
Arguments layer_z_step {X} _ _.
Arguments set_layer_z_step {X} _ _ _.
Arguments color_places_by_distance {X} _ _.
Arguments set_color_places_by_distance {X} _ _ _.
Arguments places_colormap_min_distance {X} _ _.
Arguments set_places_colormap_min_distance {X} _ _ _.
Arguments places_colormap_max_distance {X} _ _.
Arguments set_places_colormap_max_distance {X} _ _ _.
Arguments gvd_min_distance {X} _ _.
Arguments gvd_max_distance {X} _ _.

(** Struct semantics: an assignment to one field is read back from that field
    and leaves the other fields as they were. *)
Definition struct_fields {X : Externals} (F : ConfigFields X) : Prop :=
  (∀ x c, layer_z_step F (set_layer_z_step F x c) = x)
  ∧ (∀ x c, color_places_by_distance F (set_color_places_by_distance F x c) = x)
  ∧ (∀ x c, layer_z_step F (set_color_places_by_distance F x c) = layer_z_step F c)
  ∧ (∀ x c, places_colormap_min_distance F (set_places_colormap_min_distance F x c)
            = x)
  ∧ (∀ x c, places_colormap_max_distance F (set_places_colormap_max_distance F x c)
            = x)
  ∧ (∀ x c, places_colormap_min_distance F (set_places_colormap_max_distance F x c)
            = places_colormap_min_distance F c)
  ∧ (∀ x c, layer_z_step F (set_places_colormap_min_distance F x c)
            = layer_z_step F c)
  ∧ (∀ x c, layer_z_step F (set_places_colormap_max_distance F x c)
            = layer_z_step F c)
  ∧ (∀ x c, color_places_by_distance F (set_places_colormap_min_distance F x c)
            = color_places_by_distance F c)
  ∧ (∀ x c, color_places_by_distance F (set_places_colormap_max_distance F x c)
            = color_places_by_distance F c).

Section Reconfiguration.

Variable X : Externals.
Variable F : ConfigFields X.

Definition with_graph_layer (l : LayerConfig) (c : Config X) : Config X :=
  {| world_frame := world_frame c; topology_marker_ns := topology_marker_ns c;
     show_block_outlines := show_block_outlines c;
     use_gvd_block_outlines := use_gvd_block_outlines c;
     outline_scale := outline_scale c; graph_layer := l;
     graph_config := graph_config c; gvd_config := gvd_config c;
     colormap := colormap c |}.

Definition with_graph_config (g : VisualizerConfig X) (c : Config X) : Config X :=
  {| world_frame := world_frame c; topology_marker_ns := topology_marker_ns c;
     show_block_outlines := show_block_outlines c;
     use_gvd_block_outlines := use_gvd_block_outlines c;
     outline_scale := outline_scale c; graph_layer := graph_layer c;
     graph_config := g; gvd_config := gvd_config c; colormap := colormap c |}.

Definition with_gvd_config (g : GvdVisualizerConfig X) (c : Config X) : Config X :=
  {| world_frame := world_frame c; topology_marker_ns := topology_marker_ns c;
     show_block_outlines := show_block_outlines c;
     use_gvd_block_outlines := use_gvd_block_outlines c;
     outline_scale := outline_scale c; graph_layer := graph_layer c;
     graph_config := graph_config c; gvd_config := g; colormap := colormap c |}.

Definition with_colormap (m : ColormapConfig X) (c : Config X) : Config X :=
  {| world_frame := world_frame c; topology_marker_ns := topology_marker_ns c;
     show_block_outlines := show_block_outlines c;
     use_gvd_block_outlines := use_gvd_block_outlines c;
     outline_scale := outline_scale c; graph_layer := graph_layer c;
     graph_config := graph_config c; gvd_config := gvd_config c; colormap := m |}.

(** The constructor, after loading [config_] from the parameter server:
    [config_.graph.layer_z_step = 0; config_.graph.color_places_by_distance = true;] *)
Definition constructed_config (loaded : Config X) : Config X :=
  with_graph_config
    (set_color_places_by_distance F true
       (set_layer_z_step F (0 # 1)%Q (graph_config loaded)))
    loaded.

(** The second argument of each callback, the reconfigure level, is unused. *)
Definition graphConfigCb (config : LayerConfig) (level : N) (c : Config X)
    : Config X :=
  with_graph_layer config c.

Definition colormapCb (config : ColormapConfig X) (level : N) (c : Config X)
    : Config X :=
  with_colormap config c.

Definition gvdConfigCb (config : GvdVisualizerConfig X) (level : N) (c : Config X)
    : Config X :=
  let c := with_gvd_config config c in
  let c :=
    with_graph_config
      (set_places_colormap_min_distance F (gvd_min_distance F config)
         (graph_config c)) c in
  with_graph_config
    (set_places_colormap_max_distance F (gvd_max_distance F config)
       (graph_config c)) c.

(** A reconfigure request arriving at one of the three servers set up by
    [setupConfigServers]. *)
Inductive Reconfigure :=
| GraphVisualizer (config : LayerConfig) (level : N)
| VisualizerColormap (config : ColormapConfig X) (level : N)
| GvdVisualizer (config : GvdVisualizerConfig X) (level : N).

Definition reconfigure (c : Config X) (request : Reconfigure) : Config X :=
  match request with
  | GraphVisualizer config level => graphConfigCb config level c
  | VisualizerColormap config level => colormapCb config level c
  | GvdVisualizer config level => gvdConfigCb config level c
  end.

Definition reconfigure_all (c : Config X) (requests : list Reconfigure) : Config X :=
  foldl reconfigure c requests.

(** The colormap bounds of the place graph agree with the GVD distance bounds. *)
Definition bounds_synced (c : Config X) : Prop :=
  places_colormap_min_distance F (graph_config c) = gvd_min_distance F (gvd_config c)
  ∧ places_colormap_max_distance F (graph_config c)
    = gvd_max_distance F (gvd_config c).

(** What the constructor forces and what no callback assigns. *)
Definition pinned (loaded c : Config X) : Prop :=
  layer_z_step F (graph_config c) = (0 # 1)%Q
  ∧ color_places_by_distance F (graph_config c) = true
  ∧ world_frame c = world_frame loaded
  ∧ topology_marker_ns c = topology_marker_ns loaded
  ∧ show_block_outlines c = show_block_outlines loaded
  ∧ use_gvd_block_outlines c = use_gvd_block_outlines loaded
  ∧ outline_scale c = outline_scale loaded.

End Reconfiguration.

Arguments GraphVisualizer {X} config level.
Arguments VisualizerColormap {X} config level.
Arguments GvdVisualizer {X} config level.

(** ** A second set of collaborators

    As [Sample], except that the GVD graph builder packs a non-empty graph
    into a single marker, and that the graph and GVD configurations are
    structs with the fields of [ConfigFields]. *)

Module Sample2.

Record GraphCfg := mkGraphCfg {
  z_step : double;
  by_distance : bool;
  cmin : double;
  cmax : double
}.

Definition one_marker (g : list N) (s : string) : MarkerArray :=
  match g with
  | [] => []
  | _ => [Sample.marker_at default_header s 0 []]
  end.

Definition X : Externals :=
  {| GvdLayer := list Point;
     SceneGraphLayer := list N * list (N * N);
     SceneGraphNode := N;
     GvdGraph := list N;
     GvdVisualizerConfig := double * double;
     ColormapConfig := unit;
     VisualizerConfig := GraphCfg;
     CompressedNodeInfo := unit;
     CompressedRemapping := unit;
     nodes := fst;
     edges_empty := λ g, (length (snd g) =? 0)%nat;
     gvd_graph_empty := λ g, (length g =? 0)%nat;
     makeEsdfMarker := λ _ _ gvd, Sample.marker_at default_header "" 0 gvd;
     makeGvdMarker := λ _ _ gvd, Sample.marker_at default_header "" 0 gvd;
     makeSurfaceVoxelMarker := λ _ _ gvd, Sample.marker_at default_header "" 0 gvd;
     makeErrorMarker := λ _ _ lhs rhs _,
       Sample.marker_at default_header "" 0 (lhs ++ rhs);
     makeBlocksMarker := λ gvd _, Sample.marker_at default_header "" 0 gvd;
     makeCentroidMarkers := λ h _ _ _ s _, Sample.marker_at h s 0 [];
     makeCentroidMarkersZero := λ h _ _ _ s, Sample.marker_at h s 0 [];
     makeLayerEdgeMarkers := λ h _ _ _ s, Sample.marker_at h s 0 [];
     makePlaceSpheres := λ h g s _,
       imap (λ i _, Sample.marker_at h s (Z.of_nat i) []) (fst g);
     makeTextMarker := λ h _ node _ s,
       Sample.marker_at h s (wrap32 (Z.of_N node)) [];
     makeGvdGraphMarkers := λ g _ _ s, one_marker g s;
     showGvdClusters := λ g _ _ _ _ s, Sample.two_markers g s;
     makeDeleteMarker := λ h i s,
       {| m_header := h; m_ns := s; m_id := int32_of_size_t i; m_action := DELETE;
          m_points := [] |} |}.

Definition fields : ConfigFields X :=
  mkConfigFields X
    z_step
    (λ x c, {| z_step := x; by_distance := by_distance c; cmin := cmin c;
               cmax := cmax c |})
    by_distance
    (λ x c, {| z_step := z_step c; by_distance := x; cmin := cmin c;
               cmax := cmax c |})
    cmin
    (λ x c, {| z_step := z_step c; by_distance := by_distance c; cmin := x;
               cmax := cmax c |})
    cmax
    (λ x c, {| z_step := z_step c; by_distance := by_distance c; cmin := cmin c;
               cmax := x |})
    fst
    snd.

(** A configuration as the parameter server might hold it. *)
Definition loaded : Config X :=
  {| world_frame := "world";
     topology_marker_ns := "topology";
     show_block_outlines := true;
     use_gvd_block_outlines := false;
     outline_scale := (1 # 100)%Q;
     graph_layer := {| use_label := true; use_sphere_marker := true;
                       marker_scale := (1 # 10)%Q; marker_alpha := (1 # 1)%Q |};
     graph_config := ({| z_step := (5 # 1)%Q; by_distance := false;
                          cmin := (0 # 1)%Q; cmax := (1 # 1)%Q |}
                      : VisualizerConfig X);
     gvd_config := (((2 # 10)%Q, (3 # 1)%Q) : GvdVisualizerConfig X);
     colormap := (tt : ColormapConfig X) |}.

End Sample2.

(** ** The "worth sending" rule

    The payload of a channel on a tick is what the code builds for it on
    that tick. A single marker is empty when it has no points, an array when
    it has no markers. *)

Definition msg_empty (msg : Msg) : bool :=
  match msg with
  | OneMarker m => (length (m_points m) =? 0)%nat
  | Markers ms => (length ms =? 0)%nat
  end.


Section Channels.

Variable X : Externals.
Variable config_ : Config X.

(** The array a graph callback returns for sending: the builder's, with the
    headers of its first two markers replaced. *)
Definition restamped (header : Header) (markers : MarkerArray) : MarkerArray :=
  match markers with
  | m0 :: m1 :: rest => set_header header m0 :: set_header header m1 :: rest
  | _ => markers
  end.

(** What [visualizeGraph] builds from the extractor's place graph. Nothing is
    built without an extractor, nor for a graph without nodes. *)
Definition place_payload (extractor : option (Extractor X))
    (build : SceneGraphLayer X → MarkerArray) : MarkerArray :=
  match extractor with
  | Some e =>
      if (length (nodes X (getGraph X e)) =? 0)%nat then [] else build (getGraph X e)
  | None => []
  end.

(** Whether the visualizer remembers spheres or labels as shown. *)
Definition spheres_remembered (v : VizState) : bool :=
  negb (previous_spheres_ v =? 0)%nat.

Definition labels_remembered (v : VizState) : bool :=
  negb (bool_decide (previous_labels_ v = ∅)).

(** The retraction test of [visualizeGvdGraph]. Without an extractor no graph
    is at hand; a graph published earlier then counts as pending. *)
Definition gvd_graph_pending (extractor : option (Extractor X)) (v : VizState)
    : bool :=
  match extractor with
  | Some e => gvd_graph_empty X (getGvdGraph X e) && published_gvd_graph_ v
  | None => published_gvd_graph_ v
  end.

(** The builder is called only when the retraction branch is not taken. *)
Definition gvd_graph_payload (header : Header) (extractor : option (Extractor X))
    (v : VizState) : MarkerArray :=
  match extractor with
  | Some e =>
      if gvd_graph_empty X (getGvdGraph X e) && published_gvd_graph_ v then []
      else restamped header (gvd_graph_markers X config_ (getGvdGraph X e))
  | None => []
  end.

(** The same for the cluster callback, whose test reads
    [published_gvd_clusters_]. *)
Definition cluster_pending (extractor : option (Extractor X)) (v : VizState)
    : bool :=
  match as_compression X extractor with
  | Some (g, _, _) => gvd_graph_empty X g && published_gvd_clusters_ v
  | None => published_gvd_clusters_ v
  end.

Definition cluster_payload (header : Header) (extractor : option (Extractor X))
    (v : VizState) : MarkerArray :=
  match as_compression X extractor with
  | Some (g, info, remapping) =>
      if gvd_graph_empty X g && published_gvd_clusters_ v then []
      else restamped header (cluster_markers X config_ g info remapping)
  | None => []
  end.

(** The channels of a tick other than the block outlines, each with its
    payload on a tick started in state [v] and with whether a retraction is
    pending on it. The slices keep no memory. "graph_viz" and
    "freespace_graph_viz" keep none of their own: what is remembered of the
    place graph stands for what they show. *)
Definition managed_channels (header : Header) (gvd : GvdLayer X)
    (extractor : option (Extractor X)) (v : VizState)
    : list (string * Msg * bool) :=
  [ ("esdf_viz", OneMarker (esdf_marker X config_ header gvd), false);
    ("gvd_viz", OneMarker (gvd_marker X config_ header gvd), false);
    ("surface_viz", OneMarker (surface_marker X config_ header gvd), false);
    ("graph_viz",
     Markers (place_payload extractor (graph_markers X config_ header)),
     spheres_remembered v || labels_remembered v);
    ("freespace_viz",
     Markers (place_payload extractor (freespace_spheres X config_ header)),
     spheres_remembered v);
    ("freespace_graph_viz",
     Markers (place_payload extractor (freespace_graph_markers X config_ header)),
     spheres_remembered v || labels_remembered v);
    ("graph_label_viz",
     Markers (place_payload extractor
                (λ graph, if use_label (graph_layer config_)
                          then graph_labels X config_ header graph else [])),
     labels_remembered v);
    ("gvd_graph_viz", Markers (gvd_graph_payload header extractor v),
     gvd_graph_pending extractor v);
    ("gvd_cluster_viz", Markers (cluster_payload header extractor v),
     cluster_pending extractor v) ].

End Channels.

(** ** Basic facts about the monad, the gate and the observers *)

Lemma bind_Ok {E A B} (m : ST E A) (k : A → ST E B) (v : VizState) (a : A) :
  out (m v) = Ok a →
  bind m k v =
    mkRes (out (k a (st (m v)))) (st (k a (st (m v)))) (evs (m v) ++ evs (k a (st (m v)))).
Proof. intros Hm. unfold bind. by rewrite Hm. Qed.

Lemma bind_Throw {E A B} (m : ST E A) (k : A → ST E B) (v : VizState) (e : Exn) :
  out (m v) = Throw e → bind m k v = mkRes (Throw e) (st (m v)) (evs (m v)).
Proof. intros Hm. unfold bind. by rewrite Hm. Qed.

(** A callback that just hands over a prepared message and says "send". *)
Lemma publish_array_ready (name : string) (ms : MarkerArray) (v : VizState) :
  publish_array name (λ _, ret (true, ms)) v =
    mkRes (Ok tt) v [Invoked name; Sent name (Markers ms)].
Proof. reflexivity. Qed.

Lemma sent_on_app (topic : string) (es1 es2 : list Event) :
  sent_on topic (es1 ++ es2) = sent_on topic es1 ++ sent_on topic es2.
Proof.
  induction es1 as [|e es1 IH]; [done|].
  destruct e as [t|t msg|l]; simpl; try done.
  destruct (decide (t = topic)); simpl; by rewrite IH.
Qed.

Lemma topics_invoked_app (es1 es2 : list Event) :
  topics_invoked (es1 ++ es2) = topics_invoked es1 ++ topics_invoked es2.
Proof. apply flat_map_app. Qed.

Lemma topics_invoked_logged (ls : list LogLine) : topics_invoked (map Logged ls) = [].
Proof. by induction ls. Qed.

Lemma transport_sends_app (es1 es2 : list Event) :
  transport_sends (es1 ++ es2) = transport_sends es1 ++ transport_sends es2.
Proof. apply flat_map_app. Qed.

Lemma transport_sends_logged (ls : list LogLine) : transport_sends (map Logged ls) = [].
Proof. by induction ls. Qed.

Lemma sent_on_logged (topic : string) (ls : list LogLine) :
  sent_on topic (map Logged ls) = [].
Proof. by induction ls. Qed.

Create Rewrite HintDb events.
#[local] Hint Rewrite sent_on_app topics_invoked_app transport_sends_app
  topics_invoked_logged transport_sends_logged sent_on_logged @app_nil_r : events.

(** Closes goals about observers of explicit event lists: the topic
    comparisons left by [sent_on] are decided one by one. *)
Ltac solve_events := simpl; by repeat case_decide.

(** Ascending traversal lists each element of the set, once. *)
Lemma elem_of_set_iter (s : gset Z) (z : Z) : z ∈ set_iter s ↔ z ∈ s.
Proof. unfold set_iter. by rewrite merge_sort_Permutation, elem_of_elements. Qed.

Lemma NoDup_set_iter (s : gset Z) : NoDup (set_iter s).
Proof. unfold set_iter. rewrite merge_sort_Permutation. apply NoDup_elements. Qed.

Lemma Sorted_set_iter (s : gset Z) : Sorted Z.le (set_iter s).
Proof. unfold set_iter. apply (Sorted_merge_sort Z.le). Qed.

Lemma set_iter_empty : set_iter ∅ = [].
Proof. reflexivity. Qed.

(** The loop over [previous_labels_] computes a set difference. *)
Lemma ids_to_delete_difference (previous current : gset Z) :
  filter (λ p, p ∉ current) previous = previous ∖ current.
Proof. apply set_eq. intros z. rewrite elem_of_filter, elem_of_difference. tauto. Qed.

Lemma map_id_delete_label (ids : list Z) (s : string) :
  map m_id (map (λ i, delete_label i s) ids) = ids.
Proof. rewrite map_map. simpl. apply map_id. Qed.

(** ** Label reconciliation ([publishGraphLabels]) *)

Section LabelFacts.

Variable X : Externals.
Variable config_ : Config X.

Lemma publishGraphLabels_enabled (header : Header) (graph : SceneGraphLayer X)
    (v : VizState) :
  use_label (graph_layer config_) = true →
  publishGraphLabels X config_ header graph v =
    mkRes (Ok tt)
      (with_previous_labels (current_ids X config_ header graph) v)
      [Invoked "graph_label_viz";
       Sent "graph_label_viz"
         (Markers (label_deletions X config_
                     (previous_labels_ v ∖ current_ids X config_ header graph)));
       Invoked "graph_label_viz";
       Sent "graph_label_viz" (Markers (graph_labels X config_ header graph))].
Proof.
  intros Hl. unfold publishGraphLabels. rewrite Hl. simpl.
  unfold bind, get, modify. simpl.
  by rewrite ids_to_delete_difference.
Qed.

Lemma publishGraphLabels_disabled (header : Header) (graph : SceneGraphLayer X)
    (v : VizState) :
  use_label (graph_layer config_) = false →
  publishGraphLabels X config_ header graph v = mkRes (Ok tt) v [].
Proof. intros Hl. unfold publishGraphLabels. by rewrite Hl. Qed.

Lemma labels_after_snoc (ticks : list (Header * SceneGraphLayer X))
    (t : Header * SceneGraphLayer X) (v : VizState) :
  labels_after X config_ (ticks ++ [t]) v =
    st (label_step X config_ (labels_after X config_ ticks v) t).
Proof. unfold labels_after. by rewrite foldl_app. Qed.

Lemma previous_labels_after (ticks : list (Header * SceneGraphLayer X)) (i : nat)
    (c0 : bool) :
  use_label (graph_layer config_) = true →
  (i ≤ length ticks)%nat →
  previous_labels_ (labels_after X config_ (take i ticks) (initial_state c0)) =
    S_ X config_ ticks i.
Proof.
  intros Hl. induction i as [|i IH]; intros Hi; [done|].
  destruct (lookup_lt_is_Some_2 ticks i) as [t Ht]; [lia|].
  rewrite (take_S_r _ _ _ Ht), labels_after_snoc.
  unfold S_, label_step. rewrite Ht.
  by rewrite publishGraphLabels_enabled.
Qed.

End LabelFacts.

(** C1. Along any sequence of calls to [publishGraphLabels] with labels
    enabled, started from the freshly constructed visualizer, the i-th call
    sends as its delete batch one DELETE marker per id of S(i-1) \ S(i), in
    ascending order and nothing else, then sends the current labels, and
    leaves [previous_labels_] equal to S(i). The first call, whose prior set
    is empty, sends an empty delete batch. *)
Theorem publishGraphLabels_reconciles
    (X : Externals) (config_ : Config X) (c0 : bool)
    (ticks : list (Header * SceneGraphLayer X)) (i : nat)
    (t : Header * SceneGraphLayer X) :
  use_label (graph_layer config_) = true →
  ticks !! i = Some t →
  let r := label_step X config_
             (labels_after X config_ (take i ticks) (initial_state c0)) t in
  let gone := S_ X config_ ticks i ∖ S_ X config_ ticks (S i) in
  out r = Ok tt
  ∧ sent_on "graph_label_viz" (evs r) =
      [Markers (label_deletions X config_ gone);
       Markers (graph_labels X config_ (fst t) (snd t))]
  ∧ map m_id (label_deletions X config_ gone) = set_iter gone
  ∧ (∀ z, z ∈ map m_id (label_deletions X config_ gone) ↔ z ∈ gone)
  ∧ NoDup (map m_id (label_deletions X config_ gone))
  ∧ Forall (λ m, m_action m = DELETE) (label_deletions X config_ gone)
  ∧ previous_labels_ (st r) = S_ X config_ ticks (S i)
  ∧ (i = 0%nat → label_deletions X config_ gone = []).
Proof.
  intros Hl Ht r gone.
  assert (Hi : (i ≤ length ticks)%nat) by (apply lookup_lt_Some in Ht; lia).
  assert (Hids : map m_id (label_deletions X config_ gone) = set_iter gone)
    by apply map_id_delete_label.
  subst r. unfold label_step.
  rewrite publishGraphLabels_enabled by done.
  rewrite (previous_labels_after X config_ ticks i c0 Hl Hi).
  assert (Hcur : current_ids X config_ (fst t) (snd t) = S_ X config_ ticks (S i))
    by (unfold S_; by rewrite Ht).
  rewrite Hcur. fold gone.
  split_and!.
  - done.
  - solve_events.
  - done.
  - intros z. by rewrite Hids, elem_of_set_iter.
  - rewrite Hids. apply NoDup_set_iter.
  - unfold label_deletions. apply Forall_map, Forall_true. done.
  - done.
  - intros ->. assert (Hg : gone = ∅).
    { apply set_eq. intros z. unfold gone. simpl. rewrite elem_of_difference.
      split; [by intros [Hz _]|]. intros Hz. by apply not_elem_of_empty in Hz. }
    by rewrite Hg.
Qed.

Lemma publishGraphLabels_reconciles_witness :
  let ticks := [(Sample.hdr 1, Sample.layer [1; 2; 3]%N);
                (Sample.hdr 2, Sample.layer [2; 3]%N);
                (Sample.hdr 3, Sample.layer [])] in
  let t := (Sample.hdr 2, Sample.layer [2; 3]%N) in
  let r := label_step Sample.X (Sample.config true)
             (labels_after Sample.X (Sample.config true) (take 1 ticks)
                (initial_state false)) t in
  let gone := S_ Sample.X (Sample.config true) ticks 1
              ∖ S_ Sample.X (Sample.config true) ticks 2 in
  use_label (graph_layer (Sample.config true)) = true
  ∧ ticks !! 1%nat = Some t
  ∧ out r = Ok tt
  ∧ sent_on "graph_label_viz" (evs r) =
      [Markers (label_deletions Sample.X (Sample.config true) gone);
       Markers (graph_labels Sample.X (Sample.config true) (fst t) (snd t))]
  ∧ map m_id (label_deletions Sample.X (Sample.config true) gone) = set_iter gone
  ∧ (∀ z, z ∈ map m_id (label_deletions Sample.X (Sample.config true) gone)
          ↔ z ∈ gone)
  ∧ NoDup (map m_id (label_deletions Sample.X (Sample.config true) gone))
  ∧ Forall (λ m, m_action m = DELETE)
      (label_deletions Sample.X (Sample.config true) gone)
  ∧ previous_labels_ (st r) = S_ Sample.X (Sample.config true) ticks 2
  ∧ (1%nat = 0%nat → label_deletions Sample.X (Sample.config true) gone = []).
Proof.
  intros ticks t r gone.
  split; [reflexivity|]. split; [reflexivity|].
  apply (publishGraphLabels_reconciles Sample.X (Sample.config true) false ticks 1 t);
    reflexivity.
Defined.

(** The scenario of the specification: ids {1,2,3}, then {2,3}, then {}. *)
Example labels_scenario :
  let cfg := Sample.config true in
  let r1 := publishGraphLabels Sample.X cfg (Sample.hdr 1) (Sample.layer [1; 2; 3]%N)
              (initial_state false) in
  let r2 := publishGraphLabels Sample.X cfg (Sample.hdr 2) (Sample.layer [2; 3]%N)
              (st r1) in
  let r3 := publishGraphLabels Sample.X cfg (Sample.hdr 3) (Sample.layer []) (st r2) in
  deleted_ids "graph_label_viz" (evs r1) = []
  ∧ deleted_ids "graph_label_viz" (evs r2) = [1]
  ∧ deleted_ids "graph_label_viz" (evs r3) = [2; 3]
  ∧ set_iter (previous_labels_ (st r3)) = [].
Proof. vm_compute. done. Qed.

(** ** Freespace spheres ([publishFreespace]) *)

Section FreespaceFacts.

Variable X : Externals.
Variable config_ : Config X.

Lemma publishFreespace_run (header : Header) (graph : SceneGraphLayer X)
    (v : VizState) :
  publishFreespace X config_ header graph v =
    mkRes (Ok tt)
      (with_previous_spheres (length (freespace_spheres X config_ header graph)) v)
      [Invoked "freespace_viz";
       Sent "freespace_viz"
         (Markers (freespace_deletions X config_ (previous_spheres_ v)));
       Invoked "freespace_viz";
       Sent "freespace_viz" (Markers (freespace_spheres X config_ header graph));
       Invoked "freespace_graph_viz";
       Sent "freespace_graph_viz"
         (Markers (freespace_graph_markers X config_ header graph))].
Proof.
  unfold publishFreespace, freespace_graph_markers.
  destruct (edges_empty X graph); reflexivity.
Qed.

End FreespaceFacts.

Lemma wrap32_small (z : Z) : - 2 ^ 31 ≤ z < 2 ^ 31 → wrap32 z = z.
Proof. intros Hz. unfold wrap32. rewrite Z.mod_small; lia. Qed.

Lemma freespace_deletion_ids (X : Externals) (config_ : Config X) (prior : nat) :
  Z.of_nat prior ≤ 2 ^ 31 →
  map m_id (freespace_deletions X config_ prior) = map Z.of_nat (seq 0 prior).
Proof.
  intros Hp. unfold freespace_deletions. rewrite map_map. simpl.
  apply map_ext_in. intros n Hn. apply in_seq in Hn.
  unfold int32_of_size_t. apply wrap32_small. lia.
Qed.

(** C2, as stated, fails: with five spheres remembered and two current
    ones the batch retracts 0,1,2,3,4 and not just 2,3,4. *)
Lemma publishFreespace_not_minimal :
  let cfg := Sample.config true in
  let v5 := st (publishFreespace Sample.X cfg (Sample.hdr 1)
                  (Sample.layer [1; 2; 3; 4; 5]%N) (initial_state false)) in
  let graph := Sample.layer [1; 2]%N in
  let r := publishFreespace Sample.X cfg (Sample.hdr 2) graph v5 in
  previous_spheres_ v5 = 5%nat
  ∧ length (freespace_spheres Sample.X cfg (Sample.hdr 2) graph) = 2%nat
  ∧ deleted_ids "freespace_viz" (evs r) = [0; 1; 2; 3; 4]
  ∧ ¬ freespace_minimal_delete Sample.X cfg (Sample.hdr 2) graph v5.
Proof.
  intros cfg v5 graph r. split_and!; try reflexivity.
  intros Hmin. specialize (Hmin 0).
  assert (H0 : 0 ∈ deleted_ids "freespace_viz" (evs r)) by (vm_compute; left).
  apply Hmin in H0. vm_compute in H0. destruct H0 as [H0 _]. by apply H0.
Qed.

(** C2, amended. Every call of [publishFreespace] sends, ahead of the current
    spheres, one DELETE marker for each id of [0, prior count), whatever the
    current count is, and then remembers the current count; with a prior
    count of 0 the batch is empty. *)
Theorem publishFreespace_deletes_all_prior
    (X : Externals) (config_ : Config X) (header : Header)
    (graph : SceneGraphLayer X) (v : VizState) :
  Z.of_nat (previous_spheres_ v) ≤ 2 ^ 31 →
  let r := publishFreespace X config_ header graph v in
  let spheres := freespace_spheres X config_ header graph in
  let batch := freespace_deletions X config_ (previous_spheres_ v) in
  out r = Ok tt
  ∧ sent_on "freespace_viz" (evs r) = [Markers batch; Markers spheres]
  ∧ map m_id batch = map Z.of_nat (seq 0 (previous_spheres_ v))
  ∧ (∀ z, z ∈ map m_id batch ↔ 0 ≤ z < Z.of_nat (previous_spheres_ v))
  ∧ Forall (λ m, m_action m = DELETE ∧ m_ns m = freespace_ns X config_) batch
  ∧ previous_spheres_ (st r) = length spheres
  ∧ (previous_spheres_ v = 0%nat → batch = []).
Proof.
  intros Hp r spheres batch. subst r. rewrite publishFreespace_run.
  assert (Hids : map m_id batch = map Z.of_nat (seq 0 (previous_spheres_ v)))
    by by apply freespace_deletion_ids.
  split_and!.
  - done.
  - solve_events.
  - done.
  - intros z. rewrite Hids, list_elem_of_In, in_map_iff. split.
    + intros (n & <- & Hn). apply in_seq in Hn. lia.
    + intros Hz. exists (Z.to_nat z). split; [lia|]. apply in_seq. lia.
  - unfold batch, freespace_deletions. apply Forall_map, Forall_true. done.
  - done.
  - intros Hz. unfold batch. by rewrite Hz.
Qed.

Lemma publishFreespace_deletes_all_prior_witness :
  let cfg := Sample.config true in
  let v := with_previous_spheres 5 (initial_state false) in
  let graph := Sample.layer [1; 2]%N in
  let r := publishFreespace Sample.X cfg (Sample.hdr 2) graph v in
  let spheres := freespace_spheres Sample.X cfg (Sample.hdr 2) graph in
  let batch := freespace_deletions Sample.X cfg (previous_spheres_ v) in
  Z.of_nat (previous_spheres_ v) ≤ 2 ^ 31
  ∧ out r = Ok tt
  ∧ sent_on "freespace_viz" (evs r) = [Markers batch; Markers spheres]
  ∧ map m_id batch = map Z.of_nat (seq 0 (previous_spheres_ v))
  ∧ (∀ z, z ∈ map m_id batch ↔ 0 ≤ z < Z.of_nat (previous_spheres_ v))
  ∧ Forall (λ m, m_action m = DELETE ∧ m_ns m = freespace_ns Sample.X cfg) batch
  ∧ previous_spheres_ (st r) = length spheres
  ∧ (previous_spheres_ v = 0%nat → batch = []).
Proof.
  intros cfg v graph r spheres batch.
  split; [vm_compute; discriminate|].
  apply (publishFreespace_deletes_all_prior Sample.X cfg (Sample.hdr 2) graph v).
  vm_compute. discriminate.
Defined.

(** ** Whole ticks: retraction on an emptied graph *)

Lemma visualizeGraph_empty (X : Externals) (config_ : Config X) (header : Header)
    (graph : SceneGraphLayer X) (v : VizState) :
  nodes X graph = [] →
  visualizeGraph X config_ header graph v =
    mkRes (Ok tt) v [Logged (INFO, "visualizing empty graph!")].
Proof. intros Hn. unfold visualizeGraph. by rewrite Hn. Qed.

(** C3, evaluated where the code departs from it. Tick 1 shows a place graph
    with nodes 1 and 2, tick 2 finds that graph empty: nothing at all is sent
    on the label and freespace topics, and the remembered ids and count are
    those of tick 1. The GVD graph of the same extractor, emptied on the same
    tick, is retracted. *)
Lemma visualize_emptied_graph_keeps_labels :
  let cfg := Sample.config true in
  let r1 := visualize Sample.X cfg 1%N []
              (Some (GenericExtractor (Sample.layer [1; 2]%N) [7%N]))
              (initial_state false) in
  let r2 := visualize Sample.X cfg 2%N []
              (Some (GenericExtractor (Sample.layer []) [])) (st r1) in
  set_iter (previous_labels_ (st r1)) = [1; 2]
  ∧ previous_spheres_ (st r1) = 2%nat
  ∧ out r2 = Ok tt
  ∧ In (Logged (INFO, "visualizing empty graph!")) (evs r2)
  ∧ sent_on "graph_label_viz" (evs r2) = []
  ∧ sent_on "freespace_viz" (evs r2) = []
  ∧ sent_on "graph_viz" (evs r2) = []
  ∧ set_iter (previous_labels_ (st r2)) = [1; 2]
  ∧ previous_spheres_ (st r2) = 2%nat
  ∧ deleted_ids "gvd_graph_viz" (evs r2) = [0; 0].
Proof. vm_compute. split_and!; try reflexivity. do 6 right. by left. Qed.

(** ** Whole ticks: repeated retraction of the cluster graph *)

(** C4, evaluated where the code departs from it. Tick 1 publishes the
    clusters of a non-empty GVD graph; on ticks 2 and 3 the graph is empty.
    The gvd-graph topic is retracted once, on tick 2; the cluster topic is
    retracted on tick 2 and again on tick 3, because its flag stays set. *)
Lemma visualize_cluster_retraction_repeats :
  let cfg := Sample.config true in
  let full := Some (CompressionExtractor (Sample.layer []) [7%N]
                      (tt : CompressedNodeInfo Sample.X)
                      (tt : CompressedRemapping Sample.X)) in
  let emptied := Some (CompressionExtractor (Sample.layer []) []
                         (tt : CompressedNodeInfo Sample.X)
                         (tt : CompressedRemapping Sample.X)) in
  let r1 := visualize Sample.X cfg 1%N [] full (initial_state false) in
  let r2 := visualize Sample.X cfg 2%N [] emptied (st r1) in
  let r3 := visualize Sample.X cfg 3%N [] emptied (st r2) in
  published_gvd_clusters_ (st r1) = true
  ∧ deleted_ids "gvd_graph_viz" (evs r2) = [0; 0]
  ∧ deleted_ids "gvd_cluster_viz" (evs r2) = [0; 0]
  ∧ published_gvd_graph_ (st r2) = false
  ∧ published_gvd_clusters_ (st r2) = true
  ∧ sent_on "gvd_graph_viz" (evs r3) = []
  ∧ sent_on "gvd_cluster_viz" (evs r3) =
      [Markers [makeDeleteMarker Sample.X (Sample.hdr 3) 0 "gvd_cluster_graph_nodes";
                makeDeleteMarker Sample.X (Sample.hdr 3) 0 "gvd_cluster_graph_edges"]]
  ∧ published_gvd_clusters_ (st r3) = true.
Proof. vm_compute. split_and!; reflexivity. Qed.

(** ** Whole ticks: stamps of the emitted markers *)

Lemma delete_label_header (i : Z) (s : string) :
  m_header (delete_label i s) = default_header.
Proof. reflexivity. Qed.

(** C7, evaluated where the code departs from it. On the tick stamped 2 the
    retraction of label 1 and of the two remembered spheres goes out with the
    stamp and frame of a default-constructed header, while the markers added
    on the same tick carry stamp 2 and the world frame. *)
Lemma visualize_delete_markers_unstamped :
  let cfg := Sample.config true in
  let r1 := visualize Sample.X cfg 1%N []
              (Some (GenericExtractor (Sample.layer [1; 2]%N) []))
              (initial_state false) in
  let r2 := visualize Sample.X cfg 2%N []
              (Some (GenericExtractor (Sample.layer [2]%N) [])) (st r1) in
  out r2 = Ok tt
  ∧ filter (λ m, m_header m ≠ Sample.hdr 2) (emitted_markers (evs r2)) =
      [delete_label 0 "topology_freespace";
       delete_label 1 "topology_freespace";
       delete_label 1 "topology_labels"]
  ∧ m_header (delete_label 1 "topology_labels") = {| frame_id := ""; stamp := 0 |}
  ∧ In {| m_header := Sample.hdr 2; m_ns := "topology_labels"; m_id := 2;
          m_action := ADD; m_points := [] |} (emitted_markers (evs r2)).
Proof. vm_compute. split_and!; try reflexivity. do 6 right. by left. Qed.

(** ** The publish gate *)

(** C5. One call of the gate runs the producer once, on the gate's initial
    payload and the visualizer state at the time of the call, and its effects
    on that state are in place when the call returns. The transport of the
    topic is called once, with the payload the producer built, when the
    producer returns true, and not at all when it returns false or throws;
    no other transport is called. *)
Theorem publish_runs_producer_once_sends_at_most_once
    {P : Type} (wrap : P → Msg) (init : P) (name : string)
    (func : P → Cb (bool * P)) (v : VizState) :
  let r := publish wrap init name func v in
  topics_invoked (evs r) = [name]
  ∧ st r = st (func init v)
  ∧ evs r = Invoked name :: map Logged (evs (func init v))
            ++ map (λ s, Sent (fst s) (snd s)) (transport_sends (evs r))
  ∧ transport_sends (evs r) =
      match out (func init v) with
      | Ok (true, p) => [(name, wrap p)]
      | _ => []
      end
  ∧ (length (transport_sends (evs r)) ≤ 1)%nat.
Proof.
  intros r. subst r. unfold publish.
  destruct (out (func init v)) as [[[] p]|e]; simpl;
    autorewrite with events; simpl; split_and!; auto.
Qed.

(** The gate as used by [visualizeError]: one send when the error marker has
    points, none (and an INFO line) when it has none. *)
Lemma visualizeError_sends (X : Externals) (config_ : Config X) (timestamp_ns : N)
    (lhs rhs : GvdLayer X) (threshold : double) (v : VizState) :
  let msg :=
    set_header {| frame_id := world_frame config_; stamp := timestamp_ns |}
      (makeErrorMarker X (gvd_config config_) (colormap config_) lhs rhs threshold) in
  visualizeError X config_ timestamp_ns lhs rhs threshold v =
    mkRes (Ok tt) v
      (if negb (length (m_points msg) =? 0)%nat
       then [Invoked "error_viz"; Sent "error_viz" (OneMarker msg)]
       else [Invoked "error_viz";
             Logged (INFO, "no voxels with error above threshold")]).
Proof.
  intros msg. unfold visualizeError, publish_marker, publish, worth_sending.
  fold msg. by destruct (negb (length (m_points msg) =? 0)%nat).
Qed.

(** ** Bounds of the header assignments *)

Lemma stamp_first_two_run {E} (header : Header) (markers : MarkerArray) (v : VizState) :
  @stamp_first_two E header markers v =
    match markers with
    | m0 :: m1 :: rest =>
        mkRes (Ok (set_header header m0 :: set_header header m1 :: rest)) v []
    | _ => mkRes (Throw out_of_range) v []
    end.
Proof. by destruct markers as [|m0 [|m1 rest]]. Qed.

Lemma gvd_graph_callback_run (X : Externals) (config_ : Config X) (header : Header)
    (graph : GvdGraph X) (init : MarkerArray) (v : VizState) :
  let ns := topology_marker_ns config_ +:+ "_gvd_graph" in
  gvd_graph_callback X config_ header graph init v =
    if gvd_graph_empty X graph && published_gvd_graph_ v then
      mkRes (Ok (true, init ++ [makeDeleteMarker X header 0 (ns +:+ "_nodes");
                                makeDeleteMarker X header 0 (ns +:+ "_edges")]))
        (with_published_gvd_graph false v) []
    else
      stamp_and_flag header
        (makeGvdGraphMarkers X graph (gvd_config config_) (colormap config_) ns)
        (with_published_gvd_graph true) v.
Proof.
  intros ns. unfold gvd_graph_callback. fold ns.
  unfold bind at 1. simpl.
  destruct (gvd_graph_empty X graph && published_gvd_graph_ v).
  - unfold bind, modify, ret. simpl. by rewrite <- app_assoc.
  - destruct (makeGvdGraphMarkers X graph _ _ ns) as [|m0 [|m1 rest]]; reflexivity.
Qed.

Lemma gvd_cluster_callback_run (X : Externals) (config_ : Config X) (header : Header)
    (gvd_graph : GvdGraph X) (info : CompressedNodeInfo X)
    (remapping : CompressedRemapping X) (init : MarkerArray) (v : VizState) :
  gvd_cluster_callback X config_ header (gvd_graph, info, remapping) init v =
    if gvd_graph_empty X gvd_graph && published_gvd_clusters_ v then
      mkRes (Ok (true, init ++ [makeDeleteMarker X header 0 "gvd_cluster_graph_nodes";
                                makeDeleteMarker X header 0 "gvd_cluster_graph_edges"]))
        (with_published_gvd_graph false v) []
    else
      stamp_and_flag header
        (showGvdClusters X gvd_graph info remapping (gvd_config config_)
           (colormap config_) "gvd_cluster_graph")
        (with_published_gvd_clusters true) v.
Proof.
  unfold gvd_cluster_callback. unfold bind at 1. simpl.
  destruct (gvd_graph_empty X gvd_graph && published_gvd_clusters_ v).
  - unfold bind, modify, ret. simpl. by rewrite <- app_assoc.
  - destruct (showGvdClusters X gvd_graph _ _ _ _ _) as [|m0 [|m1 rest]]; reflexivity.
Qed.

Lemma stamp_and_flag_throws (header : Header) (markers : MarkerArray)
    (flag : VizState → VizState) (v : VizState) :
  out (stamp_and_flag header markers flag v) = Throw out_of_range
  ↔ length markers = 1%nat.
Proof. destruct markers as [|m0 [|m1 rest]]; simpl; split; done. Qed.

(** C10. In both graph callbacks, once the retraction branch is not taken, the
    builder's array decides the outcome: an empty array is reported as not
    worth sending, an array of two or more markers has the headers of its
    elements 0 and 1 replaced and nothing else changed, and an array of exactly
    one marker makes the access to element 1 throw [out_of_range]. So the
    callback throws exactly when the builder returns a single marker. *)
Theorem graph_callbacks_throw_iff_single_marker
    (X : Externals) (config_ : Config X) (header : Header)
    (graph : GvdGraph X) (info : CompressedNodeInfo X)
    (remapping : CompressedRemapping X) (init : MarkerArray) (v : VizState) :
  let graph_markers :=
    makeGvdGraphMarkers X graph (gvd_config config_) (colormap config_)
      (topology_marker_ns config_ +:+ "_gvd_graph") in
  let cluster_markers :=
    showGvdClusters X graph info remapping (gvd_config config_) (colormap config_)
      "gvd_cluster_graph" in
  let r_graph := gvd_graph_callback X config_ header graph init v in
  let r_cluster :=
    gvd_cluster_callback X config_ header (graph, info, remapping) init v in
  (out r_graph = Throw out_of_range
   ↔ gvd_graph_empty X graph && published_gvd_graph_ v = false
     ∧ length graph_markers = 1%nat)
  ∧ (out r_cluster = Throw out_of_range
     ↔ gvd_graph_empty X graph && published_gvd_clusters_ v = false
       ∧ length cluster_markers = 1%nat)
  ∧ r_graph =
      (if gvd_graph_empty X graph && published_gvd_graph_ v then
         mkRes
           (Ok (true,
                init ++ [makeDeleteMarker X header 0
                           ((topology_marker_ns config_ +:+ "_gvd_graph") +:+ "_nodes");
                         makeDeleteMarker X header 0
                           ((topology_marker_ns config_ +:+ "_gvd_graph") +:+ "_edges")]))
           (with_published_gvd_graph false v) []
       else stamp_and_flag header graph_markers (with_published_gvd_graph true) v)
  ∧ r_cluster =
      (if gvd_graph_empty X graph && published_gvd_clusters_ v then
         mkRes
           (Ok (true,
                init ++ [makeDeleteMarker X header 0 "gvd_cluster_graph_nodes";
                         makeDeleteMarker X header 0 "gvd_cluster_graph_edges"]))
           (with_published_gvd_graph false v) []
       else stamp_and_flag header cluster_markers (with_published_gvd_clusters true) v).
Proof.
  intros graph_markers cluster_markers r_graph r_cluster.
  subst r_graph r_cluster.
  rewrite gvd_graph_callback_run, gvd_cluster_callback_run.
  fold graph_markers cluster_markers.
  split_and!.
  - destruct (gvd_graph_empty X graph && published_gvd_graph_ v); simpl.
    + split; [done | by intros [? _]].
    + rewrite stamp_and_flag_throws. tauto.
  - destruct (gvd_graph_empty X graph && published_gvd_clusters_ v); simpl.
    + split; [done | by intros [? _]].
    + rewrite stamp_and_flag_throws. tauto.
  - done.
  - done.
Qed.

(** ** Retraction of an emptied GVD graph, once or again *)

(** The gvd-graph topic: the tick that finds the graph empty retracts and
    clears the flag, so the next tick on the still-empty graph sends nothing
    (the builder returning no markers for an empty graph). *)
Lemma visualizeGvdGraph_retracts_once (X : Externals) (config_ : Config X)
    (h1 h2 : Header) (graph : GvdGraph X) (v : VizState) :
  gvd_graph_empty X graph = true →
  published_gvd_graph_ v = true →
  gvd_graph_markers X config_ graph = [] →
  let ns := topology_marker_ns config_ +:+ "_gvd_graph" in
  let r1 := visualizeGvdGraph X config_ h1 graph v in
  let r2 := visualizeGvdGraph X config_ h2 graph (st r1) in
  transport_sends (evs r1) =
    [("gvd_graph_viz",
      Markers [makeDeleteMarker X h1 0 (ns +:+ "_nodes");
               makeDeleteMarker X h1 0 (ns +:+ "_edges")])]
  ∧ published_gvd_graph_ (st r1) = false
  ∧ transport_sends (evs r2) = []
  ∧ published_gvd_graph_ (st r2) = false.
Proof.
  intros He Hp Hm ns r1 r2. subst r1 r2.
  unfold visualizeGvdGraph, publish_array, publish.
  rewrite !gvd_graph_callback_run. fold ns. rewrite He, Hp. simpl.
  unfold gvd_graph_markers in Hm. fold ns in Hm. by rewrite Hm.
Qed.

(** The cluster topic: the same tick retracts but leaves
    [published_gvd_clusters_] set, so the state it produces meets the
    conditions of this lemma again and every further tick on the empty graph
    retracts once more. *)
Lemma cluster_retraction_rearms (X : Externals) (config_ : Config X)
    (header : Header) (graph : GvdGraph X) (info : CompressedNodeInfo X)
    (remapping : CompressedRemapping X) (v : VizState) :
  gvd_graph_empty X graph = true →
  published_gvd_clusters_ v = true →
  let r := publish_array "gvd_cluster_viz"
             (gvd_cluster_callback X config_ header (graph, info, remapping)) v in
  out r = Ok tt
  ∧ transport_sends (evs r) =
      [("gvd_cluster_viz",
        Markers [makeDeleteMarker X header 0 "gvd_cluster_graph_nodes";
                 makeDeleteMarker X header 0 "gvd_cluster_graph_edges"])]
  ∧ published_gvd_clusters_ (st r) = true
  ∧ published_gvd_graph_ (st r) = false.
Proof.
  intros He Hp r. subst r. unfold publish_array, publish.
  rewrite gvd_cluster_callback_run, He, Hp. by simpl.
Qed.

(** ** Facts about the channel registry *)

Module ChannelRegistryFacts.

Import ChannelRegistry.

Lemma well_formed_empty (prefix : string) : well_formed (create prefix).
Proof. intros k c Hk. simpl in Hk. by rewrite lookup_empty in Hk. Qed.

Lemma well_formed_call (key : N) (r : Registry) :
  well_formed r → well_formed (snd (get_or_create key r)).
Proof.
  intros Hwf. unfold get_or_create.
  destruct (pubs r !! key) as [c0|] eqn:Hkey; [done|]. simpl.
  intros k c Hk. simpl in *.
  rewrite lookup_insert in Hk. case_decide as Hd.
  - injection Hk as <-. subst k. simpl. split; [lia|].
    intros k' c' Hk' Hh. rewrite lookup_insert in Hk'. case_decide; [done|].
    apply Hwf in Hk' as [Hlt _]. lia.
  - destruct (Hwf k c Hk) as [Hlt Hinj]. split; [lia|].
    intros k' c' Hk' Hh. rewrite lookup_insert in Hk'. case_decide.
    + injection Hk' as <-. simpl in Hh. lia.
    + by apply (Hinj k' c').
Qed.

Lemma reachable_well_formed (r : Registry) : reachable r → well_formed r.
Proof.
  induction 1 as [prefix|key r _ IH];
    [apply well_formed_empty | by apply well_formed_call].
Qed.

Lemma reachable_serve (keys : list N) (r : Registry) :
  reachable r → reachable (serve keys r).
Proof.
  revert r. induction keys as [|k keys IH]; intros r Hr; [done|].
  simpl. apply IH. by constructor.
Qed.

Lemma get_or_create_cached (key : N) (r : Registry) :
  pubs (snd (get_or_create key r)) !! key = Some (fst (get_or_create key r)).
Proof.
  unfold get_or_create. destruct (pubs r !! key) as [c|] eqn:Hkey; simpl; [done|].
  by rewrite lookup_insert_eq.
Qed.

Lemma get_or_create_hit (key : N) (c : Channel) (r : Registry) :
  pubs r !! key = Some c → get_or_create key r = (c, r).
Proof. intros Hkey. unfold get_or_create. by rewrite Hkey. Qed.

(** A call never changes what is cached for any key that is present. *)
Lemma get_or_create_keeps (key k : N) (c : Channel) (r : Registry) :
  pubs r !! k = Some c → pubs (snd (get_or_create key r)) !! k = Some c.
Proof.
  intros Hk. unfold get_or_create.
  destruct (pubs r !! key) as [c0|] eqn:Hkey; simpl; [done|].
  rewrite lookup_insert_ne; [done|]. intros ->. congruence.
Qed.

Lemma serve_keeps (keys : list N) (k : N) (c : Channel) (r : Registry) :
  pubs r !! k = Some c → pubs (serve keys r) !! k = Some c.
Proof.
  revert r. induction keys as [|key keys IH]; intros r Hk; [done|].
  simpl. apply IH. by apply get_or_create_keeps.
Qed.

End ChannelRegistryFacts.

(** C6. In a registry built by calls from the empty one: calling
    [get_or_create] again with the same key, at once or after any number of
    other calls, returns the channel of the first call and leaves the registry
    as it is, constructing nothing; a call with a different key returns a
    different channel, with a different handle; and the channel stays cached
    under its key whatever is requested afterwards. *)
Theorem get_or_create_same_key_same_channel
    (r : ChannelRegistry.Registry) (k1 k2 : N) (keys : list N) :
  ChannelRegistry.reachable r →
  let c1 := fst (ChannelRegistry.get_or_create k1 r) in
  let r1 := snd (ChannelRegistry.get_or_create k1 r) in
  let later := ChannelRegistry.serve keys r1 in
  ChannelRegistry.get_or_create k1 r1 = (c1, r1)
  ∧ ChannelRegistry.get_or_create k1 later = (c1, later)
  ∧ ChannelRegistry.pubs later !! k1 = Some c1
  ∧ (k1 ≠ k2 →
     fst (ChannelRegistry.get_or_create k2 later) ≠ c1
     ∧ ChannelRegistry.handle (fst (ChannelRegistry.get_or_create k2 later))
       ≠ ChannelRegistry.handle c1).
Proof.
  intros Hr c1 r1 later.
  assert (Hc1 : ChannelRegistry.pubs r1 !! k1 = Some c1)
    by apply ChannelRegistryFacts.get_or_create_cached.
  assert (Hl1 : ChannelRegistry.pubs later !! k1 = Some c1)
    by by apply ChannelRegistryFacts.serve_keeps.
  split_and!.
  - by apply ChannelRegistryFacts.get_or_create_hit.
  - by apply ChannelRegistryFacts.get_or_create_hit.
  - done.
  - intros Hne.
    assert (Hwf : ChannelRegistry.well_formed
                    (snd (ChannelRegistry.get_or_create k2 later))).
    { apply ChannelRegistryFacts.reachable_well_formed. constructor.
      apply ChannelRegistryFacts.reachable_serve. by constructor. }
    pose proof (ChannelRegistryFacts.get_or_create_cached k2 later) as Hc2.
    pose proof (ChannelRegistryFacts.get_or_create_keeps k2 k1 c1 later Hl1) as Hc1'.
    destruct (Hwf k1 c1 Hc1') as [_ Hinj].
    assert (Hh : ChannelRegistry.handle (fst (ChannelRegistry.get_or_create k2 later))
                 ≠ ChannelRegistry.handle c1).
    { intros Hh. apply Hne. symmetry. by apply (Hinj k2 _ Hc2). }
    split; [|done]. intros Heq. apply Hh. by rewrite Heq.
Qed.

Lemma get_or_create_same_key_same_channel_witness :
  let r := ChannelRegistry.serve [3%N] (ChannelRegistry.create "objects/") in
  let c1 := fst (ChannelRegistry.get_or_create 7%N r) in
  let r1 := snd (ChannelRegistry.get_or_create 7%N r) in
  let later := ChannelRegistry.serve [3%N; 9%N] r1 in
  ChannelRegistry.reachable r
  ∧ ChannelRegistry.get_or_create 7%N r1 = (c1, r1)
  ∧ ChannelRegistry.get_or_create 7%N later = (c1, later)
  ∧ ChannelRegistry.pubs later !! 7%N = Some c1
  ∧ (7%N ≠ 9%N →
     fst (ChannelRegistry.get_or_create 9%N later) ≠ c1
     ∧ ChannelRegistry.handle (fst (ChannelRegistry.get_or_create 9%N later))
       ≠ ChannelRegistry.handle c1).
Proof.
  intros r c1 r1 later.
  assert (Hr : ChannelRegistry.reachable r).
  { apply (ChannelRegistry.reachable_call 3%N (ChannelRegistry.create "objects/")).
    apply ChannelRegistry.reachable_empty. }
  split; [exact Hr|].
  exact (get_or_create_same_key_same_channel r 7%N 9%N [3%N; 9%N] Hr).
Defined.

Example get_or_create_names :
  let r := ChannelRegistry.serve [3; 7; 3]%N (ChannelRegistry.create "objects/") in
  ChannelRegistry.constructed r = 2%nat
  ∧ fst (ChannelRegistry.get_or_create 7%N r) =
      {| ChannelRegistry.handle := 1; ChannelRegistry.topic := "objects/7" |}.
Proof. vm_compute. done. Qed.

(** ** Composition of a tick *)

Lemma out_bind {E A B} (m : ST E A) (k : A → ST E B) (v : VizState) :
  out (bind m k v) =
    match out (m v) with
    | Ok a => out (k a (st (m v)))
    | Throw e => Throw e
    end.
Proof. unfold bind. by destruct (out (m v)). Qed.

Lemma evs_bind {E A B} (m : ST E A) (k : A → ST E B) (v : VizState) :
  evs (bind m k v) =
    evs (m v) ++ match out (m v) with
                 | Ok a => evs (k a (st (m v)))
                 | Throw e => []
                 end.
Proof. unfold bind. destruct (out (m v)); simpl; by rewrite ?app_nil_r. Qed.

Lemma st_bind {E A B} (m : ST E A) (k : A → ST E B) (v : VizState) :
  st (bind m k v) =
    match out (m v) with
    | Ok a => st (k a (st (m v)))
    | Throw e => st (m v)
    end.
Proof. unfold bind. by destruct (out (m v)). Qed.

Lemma out_publish {P : Type} (wrap : P → Msg) (init : P) (name : string)
    (func : P → Cb (bool * P)) (v : VizState) :
  out (publish wrap init name func v) =
    match out (func init v) with
    | Ok _ => Ok tt
    | Throw e => Throw e
    end.
Proof. unfold publish. by destruct (out (func init v)) as [[[] p]|e]. Qed.

Lemma topics_invoked_publish {P : Type} (wrap : P → Msg) (init : P)
    (name : string) (func : P → Cb (bool * P)) (v : VizState) :
  topics_invoked (evs (publish wrap init name func v)) = [name].
Proof.
  unfold publish. destruct (out (func init v)) as [[[] p]|e]; simpl;
    rewrite ?topics_invoked_app, topics_invoked_logged; done.
Qed.

Lemma sent_on_publish_other {P : Type} (wrap : P → Msg) (init : P)
    (topic name : string) (func : P → Cb (bool * P)) (v : VizState) :
  name ≠ topic → sent_on topic (evs (publish wrap init name func v)) = [].
Proof.
  intros Hne. unfold publish. destruct (out (func init v)) as [[[] p]|e]; simpl;
    rewrite ?sent_on_app, sent_on_logged; simpl; [by case_decide | done | done].
Qed.

Lemma publish_slice_run (name text : string) (msg : Marker) (v : VizState) :
  publish_marker name (λ _, worth_sending text msg) v =
    mkRes (Ok tt) v (slice_events name text msg).
Proof.
  unfold publish_marker, publish, worth_sending, slice_events.
  by destruct (negb (length (m_points msg) =? 0)%nat).
Qed.

Section TickFacts.

Variable X : Externals.
Variable config_ : Config X.

Lemma visualizeGvd_run (header : Header) (gvd : GvdLayer X) (v : VizState) :
  visualizeGvd X config_ header gvd v =
    mkRes (Ok tt) v
      (slice_events "esdf_viz" "visualizing empty ESDF slice"
         (esdf_marker X config_ header gvd)
       ++ slice_events "gvd_viz" "visualizing empty GVD slice"
            (gvd_marker X config_ header gvd)
       ++ slice_events "surface_viz" "visualizing empty surface slice"
            (surface_marker X config_ header gvd)).
Proof.
  unfold visualizeGvd.
  rewrite (bind_Ok _ _ v tt) by by rewrite publish_slice_run.
  rewrite (bind_Ok _ _ _ tt) by by rewrite !publish_slice_run.
  by rewrite !publish_slice_run.
Qed.

Lemma visualizeBlocks_run (header : Header) (gvd : GvdLayer X) (v : VizState) :
  visualizeBlocks X config_ header gvd v =
    mkRes (Ok tt) v
      [Invoked "voxel_block_viz";
       Sent "voxel_block_viz" (OneMarker (blocks_marker X config_ header gvd))].
Proof. reflexivity. Qed.

Lemma visualizeGraph_run (header : Header) (graph : SceneGraphLayer X)
    (v : VizState) :
  visualizeGraph X config_ header graph v =
    if (length (nodes X graph) =? 0)%nat then
      mkRes (Ok tt) v [Logged (INFO, "visualizing empty graph!")]
    else
      let rf := publishFreespace X config_ header graph v in
      let rl := publishGraphLabels X config_ header graph (st rf) in
      mkRes (Ok tt) (st rl)
        ([Invoked "graph_viz";
          Sent "graph_viz" (Markers (graph_markers X config_ header graph))]
         ++ evs rf ++ evs rl).
Proof.
  unfold visualizeGraph. destruct (length (nodes X graph) =? 0)%nat; [done|].
  cbv zeta. unfold bind. simpl.
  destruct (use_label (graph_layer config_)) eqn:Hu.
  - rewrite !publishGraphLabels_enabled by done. simpl.
    unfold graph_markers. by destruct (edges_empty X graph).
  - rewrite !publishGraphLabels_disabled by done. simpl.
    unfold graph_markers. by destruct (edges_empty X graph).
Qed.

End TickFacts.

(** ** Absent extractor, empty graph *)

Section ToleranceFacts.

Variable X : Externals.
Variable config_ : Config X.

Lemma visualizeGraph_out (header : Header) (graph : SceneGraphLayer X) (v : VizState) :
  out (visualizeGraph X config_ header graph v) = Ok tt.
Proof.
  rewrite visualizeGraph_run. by destruct (length (nodes X graph) =? 0)%nat.
Qed.

Lemma visualizeGraph_topics (header : Header) (graph : SceneGraphLayer X)
    (v : VizState) :
  topics_invoked (evs (visualizeGraph X config_ header graph v)) =
    graph_topics X config_ graph.
Proof.
  rewrite visualizeGraph_run. unfold graph_topics.
  destruct (length (nodes X graph) =? 0)%nat; [done|].
  cbv zeta. rewrite publishFreespace_run.
  destruct (use_label (graph_layer config_)) eqn:Hu.
  - by rewrite publishGraphLabels_enabled.
  - by rewrite publishGraphLabels_disabled.
Qed.

Lemma visualizeGraph_sent_cluster (header : Header) (graph : SceneGraphLayer X)
    (v : VizState) :
  sent_on "gvd_cluster_viz" (evs (visualizeGraph X config_ header graph v)) = [].
Proof.
  rewrite visualizeGraph_run.
  destruct (length (nodes X graph) =? 0)%nat; [done|].
  cbv zeta. rewrite publishFreespace_run.
  destruct (use_label (graph_layer config_)) eqn:Hu.
  - rewrite publishGraphLabels_enabled by done. simpl. by repeat case_decide.
  - rewrite publishGraphLabels_disabled by done. simpl. by repeat case_decide.
Qed.

Lemma stamp_and_flag_ok (header : Header) (markers : MarkerArray)
    (flag : VizState → VizState) (v : VizState) :
  length markers ≠ 1%nat →
  ∃ b p, out (stamp_and_flag header markers flag v) = Ok (b, p).
Proof. destruct markers as [|m0 [|m1 rest]]; simpl; [eauto | done | eauto]. Qed.

Lemma visualizeGvdGraph_out (header : Header) (graph : GvdGraph X) (v : VizState) :
  length (gvd_graph_markers X config_ graph) ≠ 1%nat →
  out (visualizeGvdGraph X config_ header graph v) = Ok tt.
Proof.
  intros Hs. unfold visualizeGvdGraph, publish_array.
  rewrite out_publish, gvd_graph_callback_run.
  destruct (gvd_graph_empty X graph && published_gvd_graph_ v); [done|].
  destruct (stamp_and_flag_ok header (gvd_graph_markers X config_ graph)
              (with_published_gvd_graph true) v Hs) as (b & p & Hout).
  unfold gvd_graph_markers in Hout. by rewrite Hout.
Qed.

Lemma cluster_publish_out (header : Header) (graph : GvdGraph X)
    (info : CompressedNodeInfo X) (remapping : CompressedRemapping X)
    (v : VizState) :
  length (cluster_markers X config_ graph info remapping) ≠ 1%nat →
  out (publish_array "gvd_cluster_viz"
         (gvd_cluster_callback X config_ header (graph, info, remapping)) v) = Ok tt.
Proof.
  intros Hs. unfold publish_array.
  rewrite out_publish, gvd_cluster_callback_run.
  destruct (gvd_graph_empty X graph && published_gvd_clusters_ v); [done|].
  destruct (stamp_and_flag_ok header (cluster_markers X config_ graph info remapping)
              (with_published_gvd_clusters true) v Hs) as (b & p & Hout).
  unfold cluster_markers in Hout. by rewrite Hout.
Qed.

Lemma blocks_stage_run (header : Header) (gvd : GvdLayer X) (v : VizState) :
  (if show_block_outlines config_ then visualizeBlocks X config_ header gvd
   else ret tt) v =
    mkRes (Ok tt) v
      (if show_block_outlines config_
       then [Invoked "voxel_block_viz";
             Sent "voxel_block_viz" (OneMarker (blocks_marker X config_ header gvd))]
       else []).
Proof. by destruct (show_block_outlines config_). Qed.

Lemma topics_invoked_slice (name text : string) (msg : Marker) :
  topics_invoked (slice_events name text msg) = [name].
Proof. unfold slice_events. by destruct (negb _). Qed.

Lemma sent_on_slice_other (topic name text : string) (msg : Marker) :
  name ≠ topic → sent_on topic (slice_events name text msg) = [].
Proof.
  intros Hne. unfold slice_events. destruct (negb _); simpl; [by case_decide | done].
Qed.

(** The two graph stages of a tick, run when there is an extractor. *)
Lemma graph_stages_run (header : Header) (extractor : option (Extractor X))
    (v : VizState) :
  (∀ e, extractor = Some e →
        length (gvd_graph_markers X config_ (getGvdGraph X e)) ≠ 1%nat) →
  let r :=
    match extractor with
    | Some e =>
        visualizeGraph X config_ header (getGraph X e) ;;
        visualizeGvdGraph X config_ header (getGvdGraph X e)
    | None => ret tt
    end v in
  out r = Ok tt
  ∧ sent_on "gvd_cluster_viz" (evs r) = []
  ∧ topics_invoked (evs r) =
      match extractor with
      | None => []
      | Some e => graph_topics X config_ (getGraph X e) ++ ["gvd_graph_viz"]
      end
  ∧ (∀ e, extractor = Some e → nodes X (getGraph X e) = [] →
     In (Logged (INFO, "visualizing empty graph!")) (evs r)).
Proof.
  intros Hshape r. subst r. destruct extractor as [e|]; [|by split_and!].
  rewrite (bind_Ok _ _ v tt) by apply visualizeGraph_out. simpl.
  split_and!.
  - apply visualizeGvdGraph_out. by apply Hshape.
  - rewrite sent_on_app, visualizeGraph_sent_cluster.
    unfold visualizeGvdGraph, publish_array. by rewrite sent_on_publish_other.
  - rewrite topics_invoked_app, visualizeGraph_topics.
    unfold visualizeGvdGraph, publish_array. by rewrite topics_invoked_publish.
  - intros e' [= <-] Hn. apply in_or_app. left.
    rewrite visualizeGraph_empty by done. by left.
Qed.

End ToleranceFacts.

(** C9. Provided the graph builders return no single-marker array, a tick
    never throws. When the extractor is null or is not a compression
    extractor, nothing reaches the cluster topic, its callback is not run, and
    the callbacks of all other stages run: the three slices, the graph stages
    when there is an extractor, and the block outlines when they are enabled.
    When the extractor's place graph is empty, the tick logs "visualizing
    empty graph!" at INFO level and still completes. *)
Theorem visualize_tolerates_absent_extractor_and_empty_graph
    (X : Externals) (config_ : Config X) (timestamp_ns : N) (gvd : GvdLayer X)
    (extractor : option (Extractor X)) (v : VizState) :
  (∀ e, extractor = Some e →
        length (gvd_graph_markers X config_ (getGvdGraph X e)) ≠ 1%nat) →
  (∀ g info remapping, as_compression X extractor = Some (g, info, remapping) →
        length (cluster_markers X config_ g info remapping) ≠ 1%nat) →
  let r := visualize X config_ timestamp_ns gvd extractor v in
  out r = Ok tt
  ∧ (as_compression X extractor = None →
     sent_on "gvd_cluster_viz" (evs r) = []
     ∧ topics_invoked (evs r) =
         ["esdf_viz"; "gvd_viz"; "surface_viz"]
         ++ match extractor with
            | None => []
            | Some e => graph_topics X config_ (getGraph X e) ++ ["gvd_graph_viz"]
            end
         ++ (if show_block_outlines config_ then ["voxel_block_viz"] else []))
  ∧ (∀ e, extractor = Some e → nodes X (getGraph X e) = [] →
     In (Logged (INFO, "visualizing empty graph!")) (evs r)).
Proof.
  intros Hgraph Hcluster r. subst r. unfold visualize.
  set (header := {| frame_id := world_frame config_; stamp := timestamp_ns |}).
  rewrite (bind_Ok _ _ v tt) by by rewrite visualizeGvd_run.
  rewrite visualizeGvd_run. simpl st. simpl out. simpl evs.
  destruct (graph_stages_run X config_ header extractor v Hgraph)
    as (Hout2 & Hsent2 & Htopics2 & Hlog2).
  rewrite (bind_Ok _ _ v tt) by exact Hout2. simpl out. simpl evs.
  set (r2 := match extractor with
             | Some e =>
                 visualizeGraph X config_ header (getGraph X e) ;;
                 visualizeGvdGraph X config_ header (getGvdGraph X e)
             | None => ret tt
             end v) in *.
  rewrite (bind_Ok _ _ (st r2) tt) by by rewrite blocks_stage_run.
  rewrite blocks_stage_run. simpl out. simpl evs. simpl st.
  split_and!.
  - destruct (as_compression X extractor) as [[[g info] remapping]|] eqn:Hc; [|done].
    apply cluster_publish_out. by apply Hcluster.
  - intros Hnone. rewrite Hnone. simpl evs. rewrite app_nil_r.
    rewrite !sent_on_app, !topics_invoked_app, Hsent2, Htopics2.
    rewrite !topics_invoked_slice, !sent_on_slice_other by done.
    split; by destruct (show_block_outlines config_).
  - intros e He Hn. apply in_or_app. right. apply in_or_app. left. by apply (Hlog2 e).
Qed.

Lemma visualize_tolerates_absent_extractor_and_empty_graph_witness :
  let cfg := Sample.config true in
  let extractor := Some (GenericExtractor (Sample.layer []) ([] : GvdGraph Sample.X)) in
  let r := visualize Sample.X cfg 5%N [] extractor (initial_state false) in
  (∀ e, extractor = Some e →
        length (gvd_graph_markers Sample.X cfg (getGvdGraph Sample.X e)) ≠ 1%nat)
  ∧ (∀ g info remapping,
        as_compression Sample.X extractor = Some (g, info, remapping) →
        length (cluster_markers Sample.X cfg g info remapping) ≠ 1%nat)
  ∧ out r = Ok tt
  ∧ (as_compression Sample.X extractor = None →
     sent_on "gvd_cluster_viz" (evs r) = []
     ∧ topics_invoked (evs r) =
         ["esdf_viz"; "gvd_viz"; "surface_viz"]
         ++ match extractor with
            | None => []
            | Some e =>
                graph_topics Sample.X cfg (getGraph Sample.X e) ++ ["gvd_graph_viz"]
            end
         ++ (if show_block_outlines cfg then ["voxel_block_viz"] else []))
  ∧ (∀ e, extractor = Some e → nodes Sample.X (getGraph Sample.X e) = [] →
     In (Logged (INFO, "visualizing empty graph!")) (evs r)).
Proof.
  intros cfg extractor r.
  assert (Hgraph : ∀ e, extractor = Some e →
            length (gvd_graph_markers Sample.X cfg (getGvdGraph Sample.X e)) ≠ 1%nat).
  { intros e He. injection He as <-. vm_compute. discriminate. }
  assert (Hcluster : ∀ g info remapping,
            as_compression Sample.X extractor = Some (g, info, remapping) →
            length (cluster_markers Sample.X cfg g info remapping) ≠ 1%nat).
  { intros g info remapping Hc. vm_compute in Hc. discriminate. }
  split; [exact Hgraph|]. split; [exact Hcluster|].
  exact (visualize_tolerates_absent_extractor_and_empty_graph Sample.X cfg 5%N []
           extractor (initial_state false) Hgraph Hcluster).
Defined.

(** * Further properties of the visualizer *)


Lemma emitted_markers_app (es1 es2 : list Event) :
  emitted_markers (es1 ++ es2) = emitted_markers es1 ++ emitted_markers es2.
Proof. apply flat_map_app. Qed.

Lemma slice_marker_points (header : Header) (m : Marker) :
  m_points (slice_marker header m) = m_points m.
Proof. reflexivity. Qed.

(** What one slice callback leaves behind, by the points of its marker. *)
Lemma slice_events_cases (name text : string) (msg : Marker) :
  (m_points msg = [] ∧ slice_events name text msg = [Invoked name; Logged (INFO, text)])
  ∨ (m_points msg ≠ []
     ∧ slice_events name text msg = [Invoked name; Sent name (OneMarker msg)]).
Proof.
  unfold slice_events. destruct (m_points msg) as [|p ps]; simpl; [by left|by right].
Qed.

(** ** The error view ([visualizeError]) *)

(** X1. [visualizeError] never throws and never touches the visualizer's
    members. It runs one callback on "error_viz"; the marker of the builder is
    sent, restamped with the world frame and the given time, exactly when it
    has points, and otherwise the only trace of the call is one INFO line. *)
Theorem visualizeError_sends_only_nonempty
    (X : Externals) (config_ : Config X) (timestamp_ns : N)
    (lhs rhs : GvdLayer X) (threshold : double) (v : VizState) :
  let built :=
    makeErrorMarker X (gvd_config config_) (colormap config_) lhs rhs threshold in
  let stamped :=
    set_header {| frame_id := world_frame config_; stamp := timestamp_ns |} built in
  let r := visualizeError X config_ timestamp_ns lhs rhs threshold v in
  out r = Ok tt
  ∧ st r = v
  ∧ topics_invoked (evs r) = ["error_viz"]
  ∧ transport_sends (evs r) =
      match m_points built with
      | [] => []
      | _ :: _ => [("error_viz", OneMarker stamped)]
      end
  ∧ logged (evs r) =
      match m_points built with
      | [] => [(INFO, "no voxels with error above threshold")]
      | _ :: _ => []
      end.
Proof.
  intros built stamped r. subst r.
  pose proof (visualizeError_sends X config_ timestamp_ns lhs rhs threshold v) as Hrun.
  cbv zeta in Hrun. rewrite Hrun. fold built. simpl m_points.
  destruct (m_points built) as [|p ps]; simpl; by split_and!.
Qed.

(** ** The three slices ([visualizeGvd]) *)


Lemma visualizeGvd_markers_stamped (X : Externals) (config_ : Config X)
    (header : Header) (gvd : GvdLayer X) (v : VizState) :
  Forall (λ m, m_header m = header)
    (emitted_markers (evs (visualizeGvd X config_ header gvd v))).
Proof.
  rewrite visualizeGvd_run. cbn [evs]. rewrite !emitted_markers_app.
  destruct (slice_events_cases "esdf_viz" "visualizing empty ESDF slice"
              (esdf_marker X config_ header gvd)) as [[_ ->]|[_ ->]];
  destruct (slice_events_cases "gvd_viz" "visualizing empty GVD slice"
              (gvd_marker X config_ header gvd)) as [[_ ->]|[_ ->]];
  destruct (slice_events_cases "surface_viz" "visualizing empty surface slice"
              (surface_marker X config_ header gvd)) as [[_ ->]|[_ ->]];
  simpl; by repeat constructor.
Qed.

(** ** A tick without an extractor *)

(** X3. With a null extractor [visualize] needs no assumption on the builders:
    it never throws, leaves the visualizer's members as they were, does what
    [visualizeGvd] does followed, when block outlines are enabled, by
    [visualizeBlocks], and every marker it emits carries the world frame and
    the time of the tick. *)
Theorem visualize_without_extractor
    (X : Externals) (config_ : Config X) (timestamp_ns : N) (gvd : GvdLayer X)
    (v : VizState) :
  let header := {| frame_id := world_frame config_; stamp := timestamp_ns |} in
  let r := visualize X config_ timestamp_ns gvd None v in
  out r = Ok tt
  ∧ st r = v
  ∧ evs r =
      evs (visualizeGvd X config_ header gvd v)
      ++ (if show_block_outlines config_
          then evs (visualizeBlocks X config_ header gvd v) else [])
  ∧ Forall (λ m, m_header m = header) (emitted_markers (evs r)).
Proof.
  intros header r. subst r. unfold visualize. fold header. cbn [as_compression].
  pose proof (visualizeGvd_markers_stamped X config_ header gvd v) as Hsent.
  assert (Hrun : visualizeGvd X config_ header gvd v =
                 mkRes (Ok tt) v (evs (visualizeGvd X config_ header gvd v)))
    by by rewrite visualizeGvd_run.
  rewrite (bind_Ok _ _ v tt) by by rewrite Hrun.
  rewrite Hrun in *. cbn [out st evs] in *.
  rewrite (bind_Ok _ _ v tt) by reflexivity.
  rewrite (bind_Ok _ _ v tt) by by rewrite blocks_stage_run.
  rewrite blocks_stage_run. cbn [out st evs ret]. rewrite !app_nil_r.
  cbn [app]. split_and!; try done.
  rewrite emitted_markers_app. apply Forall_app. split; [done|].
  destruct (show_block_outlines config_); simpl; by repeat constructor.
Qed.

(** ** What the place-graph stage remembers ([visualizeGraph]) *)

(** X4. [visualizeGraph] never throws and never writes the two GVD flags. For
    a graph without nodes it leaves the remembered sphere count and label ids
    as they were (they are not reset); otherwise the count becomes the number
    of spheres built for this graph and, when labels are enabled, the ids
    become those of the labels built for it. *)
Theorem visualizeGraph_updates_only_place_memory
    (X : Externals) (config_ : Config X) (header : Header)
    (graph : SceneGraphLayer X) (v : VizState) :
  let r := visualizeGraph X config_ header graph v in
  out r = Ok tt
  ∧ published_gvd_graph_ (st r) = published_gvd_graph_ v
  ∧ published_gvd_clusters_ (st r) = published_gvd_clusters_ v
  ∧ previous_spheres_ (st r) =
      (if (length (nodes X graph) =? 0)%nat then previous_spheres_ v
       else length (freespace_spheres X config_ header graph))
  ∧ previous_labels_ (st r) =
      (if (length (nodes X graph) =? 0)%nat then previous_labels_ v
       else if use_label (graph_layer config_)
            then current_ids X config_ header graph
            else previous_labels_ v).
Proof.
  intros r. subst r. rewrite visualizeGraph_run.
  destruct (length (nodes X graph) =? 0)%nat; [by split_and!|].
  cbv zeta. rewrite publishFreespace_run. cbn [out st evs].
  destruct (use_label (graph_layer config_)) eqn:Hu.
  - rewrite publishGraphLabels_enabled by done. by split_and!.
  - rewrite publishGraphLabels_disabled by done. by split_and!.
Qed.

(** ** One call of [publishFreespace] after another *)

(** X5. What one call of [publishFreespace] shows, the next call retracts:
    when the spheres of the first call are numbered 0, 1, 2, ... within the
    namespace they were asked for (and are fewer than 2^31), the delete batch
    of the second call names exactly their keys, one DELETE marker each, and
    is sent ahead of the second call's own spheres. *)
Theorem publishFreespace_retracts_what_was_shown
    (X : Externals) (config_ : Config X) (h1 h2 : Header)
    (g1 g2 : SceneGraphLayer X) (v : VizState) :
  let shown := freespace_spheres X config_ h1 g1 in
  Z.of_nat (length shown) ≤ 2 ^ 31 →
  map m_id shown = map Z.of_nat (seq 0 (length shown)) →
  Forall (λ m, m_ns m = freespace_ns X config_) shown →
  let r1 := publishFreespace X config_ h1 g1 v in
  let r2 := publishFreespace X config_ h2 g2 (st r1) in
  let batch := freespace_deletions X config_ (length shown) in
  sent_on "freespace_viz" (evs r2) =
    [Markers batch; Markers (freespace_spheres X config_ h2 g2)]
  ∧ map marker_key batch = map marker_key shown
  ∧ Forall (λ m, m_action m = DELETE) batch.
Proof.
  intros shown Hlen Hids Hns r1 r2 batch. subst r1 r2.
  rewrite !publishFreespace_run. cbn [out st evs previous_spheres_
    with_previous_spheres]. fold shown. fold batch.
  split_and!.
  - solve_events.
  - assert (Hb : map m_id batch = map m_id shown).
    { rewrite Hids. by apply freespace_deletion_ids. }
    assert (Hn : map m_ns batch = map m_ns shown).
    { unfold batch, freespace_deletions. rewrite map_map. simpl.
      clear -Hns. unfold shown in *.
      assert (Hl : length (seq 0 (length (freespace_spheres X config_ h1 g1)))
                   = length (freespace_spheres X config_ h1 g1))
        by apply length_seq.
      revert Hl. generalize (seq 0 (length (freespace_spheres X config_ h1 g1))).
      induction Hns as [|m ms Hm _ IH]; intros [|n ns] Hl; simpl in *; try done.
      f_equal; [done|]. apply IH. lia. }
    clear -Hb Hn. revert Hb Hn. generalize batch. unfold marker_key.
    induction shown as [|m ms IH]; intros [|b bs] Hb Hn; simpl in *; try done.
    injection Hb as Hb1 Hb. injection Hn as Hn1 Hn.
    f_equal; [by rewrite Hb1, Hn1 | by apply IH].
  - unfold batch, freespace_deletions. apply Forall_map, Forall_true. done.
Qed.

Lemma publishFreespace_retracts_what_was_shown_witness :
  let cfg := Sample.config true in
  let g1 := Sample.layer [4; 5; 6]%N in
  let g2 := Sample.layer [5]%N in
  let v := initial_state false in
  let shown := freespace_spheres Sample.X cfg (Sample.hdr 1) g1 in
  let r1 := publishFreespace Sample.X cfg (Sample.hdr 1) g1 v in
  let r2 := publishFreespace Sample.X cfg (Sample.hdr 2) g2 (st r1) in
  let batch := freespace_deletions Sample.X cfg (length shown) in
  Z.of_nat (length shown) ≤ 2 ^ 31
  ∧ map m_id shown = map Z.of_nat (seq 0 (length shown))
  ∧ Forall (λ m, m_ns m = freespace_ns Sample.X cfg) shown
  ∧ sent_on "freespace_viz" (evs r2) =
      [Markers batch; Markers (freespace_spheres Sample.X cfg (Sample.hdr 2) g2)]
  ∧ map marker_key batch = map marker_key shown
  ∧ Forall (λ m, m_action m = DELETE) batch.
Proof.
  intros cfg g1 g2 v shown r1 r2 batch.
  assert (Hlen : Z.of_nat (length shown) ≤ 2 ^ 31) by (vm_compute; discriminate).
  assert (Hids : map m_id shown = map Z.of_nat (seq 0 (length shown)))
    by reflexivity.
  assert (Hns : Forall (λ m, m_ns m = freespace_ns Sample.X cfg) shown)
    by (vm_compute; by repeat constructor).
  split; [exact Hlen|]. split; [exact Hids|]. split; [exact Hns|].
  exact (publishFreespace_retracts_what_was_shown Sample.X cfg (Sample.hdr 1)
           (Sample.hdr 2) g1 g2 v Hlen Hids Hns).
Defined.

(** ** Labels switched off and on again *)

(** X6. Calls of [publishGraphLabels] made while labels are disabled send
    nothing and leave the remembered ids alone, whatever graphs they are
    given. So the labels of the last enabled call that a later graph no longer
    has are retracted by the next enabled call and not before: its delete
    batch is that enabled call's ids minus the current ones. *)
Theorem publishGraphLabels_skips_disabled_calls
    (X : Externals) (on off : Config X) (h1 h3 : Header)
    (g1 g3 : SceneGraphLayer X) (between : list (Header * SceneGraphLayer X))
    (v : VizState) :
  use_label (graph_layer on) = true →
  use_label (graph_layer off) = false →
  let r1 := publishGraphLabels X on h1 g1 v in
  let idle := run_all (map (λ t, publishGraphLabels X off (fst t) (snd t)) between)
                (st r1) in
  let r3 := publishGraphLabels X on h3 g3 (st idle) in
  out idle = Ok tt
  ∧ evs idle = []
  ∧ st idle = st r1
  ∧ sent_on "graph_label_viz" (evs r3) =
      [Markers (label_deletions X on
                  (current_ids X on h1 g1 ∖ current_ids X on h3 g3));
       Markers (graph_labels X on h3 g3)].
Proof.
  intros Hon Hoff r1 idle r3.
  assert (Hidle : ∀ w, run_all (map (λ t, publishGraphLabels X off (fst t) (snd t))
                                  between) w = mkRes (Ok tt) w []).
  { induction between as [|t ts IH]; intros w; [done|]. simpl.
    rewrite (bind_Ok _ _ w tt) by by rewrite publishGraphLabels_disabled.
    rewrite publishGraphLabels_disabled by done. cbn [out st evs]. by rewrite IH. }
  subst idle r3. rewrite Hidle. cbn [out st evs]. split_and!; try done.
  subst r1. rewrite !publishGraphLabels_enabled by done. solve_events.
Qed.

Lemma publishGraphLabels_skips_disabled_calls_witness :
  let on := Sample.config true in
  let off := Sample.config false in
  let g1 := Sample.layer [1; 2; 3]%N in
  let g3 := Sample.layer [3]%N in
  let between := [(Sample.hdr 2, Sample.layer [2]%N); (Sample.hdr 3, Sample.layer [])] in
  let v := initial_state false in
  let r1 := publishGraphLabels Sample.X on (Sample.hdr 1) g1 v in
  let idle := run_all (map (λ t, publishGraphLabels Sample.X off (fst t) (snd t))
                         between) (st r1) in
  let r3 := publishGraphLabels Sample.X on (Sample.hdr 4) g3 (st idle) in
  use_label (graph_layer on) = true
  ∧ use_label (graph_layer off) = false
  ∧ out idle = Ok tt
  ∧ evs idle = []
  ∧ st idle = st r1
  ∧ sent_on "graph_label_viz" (evs r3) =
      [Markers (label_deletions Sample.X on
                  (current_ids Sample.X on (Sample.hdr 1) g1
                   ∖ current_ids Sample.X on (Sample.hdr 4) g3));
       Markers (graph_labels Sample.X on (Sample.hdr 4) g3)].
Proof.
  intros on off g1 g3 between v r1 idle r3.
  split; [reflexivity|]. split; [reflexivity|].
  apply (publishGraphLabels_skips_disabled_calls Sample.X on off (Sample.hdr 1)
           (Sample.hdr 4) g1 g3 between v); reflexivity.
Defined.

(** ** A tick that throws *)

(** [topic ∉ [t1; ...; tn]] for distinct literal topics. *)
Ltac solve_other_topic :=
  repeat (apply not_elem_of_cons; split; [done|]); apply not_elem_of_nil.

(** Refutes a case in which a topic excluded by hypothesis was matched. *)
Ltac refute_topic :=
  exfalso;
  match goal with
  | H : _ ∉ _ |- _ =>
      apply H; rewrite !elem_of_cons; repeat (first [left; reflexivity | right])
  end.

Lemma visualizeGraph_keeps_flags (X : Externals) (config_ : Config X)
    (header : Header) (graph : SceneGraphLayer X) (v : VizState) :
  published_gvd_graph_ (st (visualizeGraph X config_ header graph v))
  = published_gvd_graph_ v
  ∧ published_gvd_clusters_ (st (visualizeGraph X config_ header graph v))
    = published_gvd_clusters_ v.
Proof.
  rewrite visualizeGraph_run.
  destruct (length (nodes X graph) =? 0)%nat; [done|].
  cbv zeta. rewrite publishFreespace_run. cbn [out st evs].
  destruct (use_label (graph_layer config_)) eqn:Hu.
  - by rewrite publishGraphLabels_enabled.
  - by rewrite publishGraphLabels_disabled.
Qed.

Lemma visualizeGraph_sent_elsewhere (X : Externals) (config_ : Config X)
    (header : Header) (graph : SceneGraphLayer X) (v : VizState) (topic : string) :
  topic ∉ ["graph_viz"; "freespace_viz"; "freespace_graph_viz"; "graph_label_viz"] →
  sent_on topic (evs (visualizeGraph X config_ header graph v)) = [].
Proof.
  intros Ht. rewrite visualizeGraph_run.
  destruct (length (nodes X graph) =? 0)%nat; [done|].
  cbv zeta. rewrite publishFreespace_run. cbn [out st evs].
  destruct (use_label (graph_layer config_)) eqn:Hu.
  - rewrite publishGraphLabels_enabled by done. simpl.
    repeat case_decide; subst; first [done | refute_topic].
  - rewrite publishGraphLabels_disabled by done. simpl.
    repeat case_decide; subst; first [done | refute_topic].
Qed.

Lemma visualizeGvd_sent_elsewhere (X : Externals) (config_ : Config X)
    (header : Header) (gvd : GvdLayer X) (v : VizState) (topic : string) :
  topic ∉ ["esdf_viz"; "gvd_viz"; "surface_viz"] →
  sent_on topic (evs (visualizeGvd X config_ header gvd v)) = [].
Proof.
  intros Ht. rewrite visualizeGvd_run. cbn [evs]. rewrite !sent_on_app.
  apply not_elem_of_cons in Ht as [H1 Ht].
  apply not_elem_of_cons in Ht as [H2 Ht].
  apply not_elem_of_cons in Ht as [H3 _].
  by rewrite !sent_on_slice_other.
Qed.

(** X7. When the GVD graph builder returns exactly one marker (and no
    retraction is due), [visualize] throws [out_of_range] in the middle of
    the tick: the slices and the place graph have been published and the
    place-graph memory updated, the callback of "gvd_graph_viz" has run
    without anything being sent for it, and neither the block outlines nor the
    clusters are reached. *)
Theorem visualize_aborts_on_single_gvd_graph_marker
    (X : Externals) (config_ : Config X) (timestamp_ns : N) (gvd : GvdLayer X)
    (e : Extractor X) (v : VizState) :
  gvd_graph_empty X (getGvdGraph X e) && published_gvd_graph_ v = false →
  length (gvd_graph_markers X config_ (getGvdGraph X e)) = 1%nat →
  let header := {| frame_id := world_frame config_; stamp := timestamp_ns |} in
  let r := visualize X config_ timestamp_ns gvd (Some e) v in
  out r = Throw out_of_range
  ∧ st r = st (visualizeGraph X config_ header (getGraph X e) v)
  ∧ evs r =
      evs (visualizeGvd X config_ header gvd v)
      ++ evs (visualizeGraph X config_ header (getGraph X e) v)
      ++ [Invoked "gvd_graph_viz"]
  ∧ sent_on "gvd_graph_viz" (evs r) = []
  ∧ sent_on "voxel_block_viz" (evs r) = []
  ∧ sent_on "gvd_cluster_viz" (evs r) = [].
Proof.
  intros Hretract Hone header r. subst r. unfold visualize. fold header.
  assert (Hgvd : visualizeGvd X config_ header gvd v =
                 mkRes (Ok tt) v (evs (visualizeGvd X config_ header gvd v)))
    by by rewrite visualizeGvd_run.
  rewrite (bind_Ok _ _ v tt) by by rewrite Hgvd.
  assert (Hst : st (visualizeGvd X config_ header gvd v) = v) by by rewrite Hgvd.
  rewrite Hst.
  set (rg := visualizeGraph X config_ header (getGraph X e) v).
  assert (Hthrow : visualizeGvdGraph X config_ header (getGvdGraph X e) (st rg) =
                   mkRes (Throw out_of_range) (st rg) [Invoked "gvd_graph_viz"]).
  { unfold visualizeGvdGraph, publish_array, publish.
    rewrite gvd_graph_callback_run.
    destruct (visualizeGraph_keeps_flags X config_ header (getGraph X e) v)
      as [Hflag _].
    fold rg in Hflag. rewrite Hflag, Hretract.
    unfold gvd_graph_markers in Hone.
    destruct (makeGvdGraphMarkers X (getGvdGraph X e) _ _ _) as [|m0 [|m1 rest]];
      simpl in Hone; try done. }
  assert (Hstage :
    (visualizeGraph X config_ header (getGraph X e) ;;
     visualizeGvdGraph X config_ header (getGvdGraph X e)) v =
    mkRes (Throw out_of_range) (st rg) (evs rg ++ [Invoked "gvd_graph_viz"])).
  { rewrite (bind_Ok _ _ v tt) by apply visualizeGraph_out. fold rg.
    by rewrite Hthrow. }
  rewrite (bind_Throw _ _ v out_of_range) by by rewrite Hstage.
  rewrite Hstage. cbn [out st evs].
  split_and!; try done.
  - rewrite !sent_on_app, visualizeGvd_sent_elsewhere by solve_other_topic.
    unfold rg. by rewrite visualizeGraph_sent_elsewhere by solve_other_topic.
  - rewrite !sent_on_app, visualizeGvd_sent_elsewhere by solve_other_topic.
    unfold rg. by rewrite visualizeGraph_sent_elsewhere by solve_other_topic.
  - rewrite !sent_on_app, visualizeGvd_sent_elsewhere by solve_other_topic.
    unfold rg. by rewrite visualizeGraph_sent_elsewhere by solve_other_topic.
Qed.

Lemma visualize_aborts_on_single_gvd_graph_marker_witness :
  let cfg := Sample2.loaded in
  let e := GenericExtractor (X := Sample2.X) ([1%N], []) [7%N] in
  let v := initial_state false in
  let header := {| frame_id := world_frame cfg; stamp := 4%N |} in
  let r := visualize Sample2.X cfg 4%N [] (Some e) v in
  gvd_graph_empty Sample2.X (getGvdGraph Sample2.X e) && published_gvd_graph_ v
  = false
  ∧ length (gvd_graph_markers Sample2.X cfg (getGvdGraph Sample2.X e)) = 1%nat
  ∧ out r = Throw out_of_range
  ∧ st r = st (visualizeGraph Sample2.X cfg header (getGraph Sample2.X e) v)
  ∧ evs r =
      evs (visualizeGvd Sample2.X cfg header [] v)
      ++ evs (visualizeGraph Sample2.X cfg header (getGraph Sample2.X e) v)
      ++ [Invoked "gvd_graph_viz"]
  ∧ sent_on "gvd_graph_viz" (evs r) = []
  ∧ sent_on "voxel_block_viz" (evs r) = []
  ∧ sent_on "gvd_cluster_viz" (evs r) = [].
Proof.
  intros cfg e v header r.
  split; [reflexivity|]. split; [reflexivity|].
  apply (visualize_aborts_on_single_gvd_graph_marker Sample2.X cfg 4%N [] e v);
    reflexivity.
Defined.

(** ** The gvd-graph topic over consecutive ticks *)

Lemma visualizeGvdGraph_on_empty (X : Externals) (config_ : Config X)
    (header : Header) (graph : GvdGraph X) (v : VizState) :
  gvd_graph_empty X graph = true →
  gvd_graph_markers X config_ graph = [] →
  let ns := topology_marker_ns config_ +:+ "_gvd_graph" in
  visualizeGvdGraph X config_ header graph v =
    mkRes (Ok tt) (with_published_gvd_graph false v)
      (Invoked "gvd_graph_viz"
       :: (if published_gvd_graph_ v
           then [Sent "gvd_graph_viz"
                   (Markers [makeDeleteMarker X header 0 (ns +:+ "_nodes");
                             makeDeleteMarker X header 0 (ns +:+ "_edges")])]
           else [])).
Proof.
  intros He Hm ns. unfold visualizeGvdGraph, publish_array, publish.
  rewrite gvd_graph_callback_run. fold ns. rewrite He.
  unfold gvd_graph_markers in Hm. fold ns in Hm. rewrite Hm.
  destruct v as [n l [] c]; reflexivity.
Qed.

(** X8. Over any number of consecutive calls of [visualizeGvdGraph] on an
    empty GVD graph (for which the builder returns no markers), at most one
    message is sent: the pair of delete markers, stamped with the header of
    the first call, and only if the graph had been published before. After
    the first call the flag is clear. *)
Theorem visualizeGvdGraph_retracts_at_most_once
    (X : Externals) (config_ : Config X) (graph : GvdGraph X)
    (headers : list Header) (v : VizState) :
  gvd_graph_empty X graph = true →
  gvd_graph_markers X config_ graph = [] →
  let ns := topology_marker_ns config_ +:+ "_gvd_graph" in
  let r := run_all (map (λ h, visualizeGvdGraph X config_ h graph) headers) v in
  out r = Ok tt
  ∧ transport_sends (evs r) =
      match headers with
      | [] => []
      | h :: _ =>
          if published_gvd_graph_ v
          then [("gvd_graph_viz",
                 Markers [makeDeleteMarker X h 0 (ns +:+ "_nodes");
                          makeDeleteMarker X h 0 (ns +:+ "_edges")])]
          else []
      end
  ∧ published_gvd_graph_ (st r) =
      match headers with
      | [] => published_gvd_graph_ v
      | _ :: _ => false
      end
  ∧ topics_invoked (evs r) = map (λ _, "gvd_graph_viz") headers.
Proof.
  intros He Hm ns r. subst r. revert v.
  induction headers as [|h hs IH]; intros v; [done|].
  simpl. rewrite (bind_Ok _ _ v tt) by by rewrite visualizeGvdGraph_on_empty.
  rewrite visualizeGvdGraph_on_empty by done. fold ns. cbn [out st evs].
  destruct (IH (with_published_gvd_graph false v)) as (Hout & Hsend & Hflag & Htop).
  split_and!.
  - done.
  - rewrite transport_sends_app, Hsend. simpl.
    destruct hs; destruct (published_gvd_graph_ v); reflexivity.
  - rewrite Hflag. by destruct hs.
  - rewrite topics_invoked_app, Htop.
    by destruct (published_gvd_graph_ v).
Qed.

Lemma visualizeGvdGraph_retracts_at_most_once_witness :
  let cfg := Sample.config true in
  let graph : GvdGraph Sample.X := [] in
  let headers := [Sample.hdr 2; Sample.hdr 3; Sample.hdr 4] in
  let v := with_published_gvd_graph true (initial_state false) in
  let ns := topology_marker_ns cfg +:+ "_gvd_graph" in
  let r := run_all (map (λ h, visualizeGvdGraph Sample.X cfg h graph) headers) v in
  gvd_graph_empty Sample.X graph = true
  ∧ gvd_graph_markers Sample.X cfg graph = []
  ∧ out r = Ok tt
  ∧ transport_sends (evs r) =
      match headers with
      | [] => []
      | h :: _ =>
          if published_gvd_graph_ v
          then [("gvd_graph_viz",
                 Markers [makeDeleteMarker Sample.X h 0 (ns +:+ "_nodes");
                          makeDeleteMarker Sample.X h 0 (ns +:+ "_edges")])]
          else []
      end
  ∧ published_gvd_graph_ (st r) =
      match headers with
      | [] => published_gvd_graph_ v
      | _ :: _ => false
      end
  ∧ topics_invoked (evs r) = map (λ _, "gvd_graph_viz") headers.
Proof.
  intros cfg graph headers v ns r.
  split; [reflexivity|]. split; [reflexivity|].
  apply (visualizeGvdGraph_retracts_at_most_once Sample.X cfg graph headers v);
    reflexivity.
Defined.

(** ** The cluster stage of a tick *)

Lemma visualize_by_stages (X : Externals) (config_ : Config X) (timestamp_ns : N)
    (gvd : GvdLayer X) (extractor : option (Extractor X)) (v : VizState) :
  let header := {| frame_id := world_frame config_; stamp := timestamp_ns |} in
  let slices := evs (visualizeGvd X config_ header gvd v) in
  let graphs := graph_stages X config_ header extractor v in
  visualize X config_ timestamp_ns gvd extractor v =
    match out graphs with
    | Throw e => mkRes (Throw e) (st graphs) (slices ++ evs graphs)
    | Ok _ =>
        let clusters := cluster_stage X config_ header extractor (st graphs) in
        mkRes (out clusters) (st clusters)
          (slices ++ evs graphs
           ++ evs (blocks_stage X config_ header gvd (st graphs)) ++ evs clusters)
    end.
Proof.
  intros header slices graphs.
  change (visualize X config_ timestamp_ns gvd extractor v)
    with ((visualizeGvd X config_ header gvd ;;
           graph_stages X config_ header extractor ;;
           blocks_stage X config_ header gvd ;;
           cluster_stage X config_ header extractor) v).
  assert (Hgvd : visualizeGvd X config_ header gvd v = mkRes (Ok tt) v slices)
    by (unfold slices; by rewrite visualizeGvd_run).
  rewrite (bind_Ok _ _ v tt) by by rewrite Hgvd.
  rewrite Hgvd. cbn [out st evs]. fold graphs.
  destruct (out graphs) as [[]|e] eqn:Hgraphs.
  - rewrite (bind_Ok _ _ v tt) by exact Hgraphs. fold graphs. cbn [out st evs].
    assert (Hblocks : blocks_stage X config_ header gvd (st graphs) =
                      mkRes (Ok tt) (st graphs)
                        (evs (blocks_stage X config_ header gvd (st graphs)))).
    { unfold blocks_stage. by destruct (show_block_outlines config_). }
    rewrite (bind_Ok _ _ (st graphs) tt) by by rewrite Hblocks.
    rewrite Hblocks. by cbn [out st evs].
  - rewrite (bind_Throw _ _ v e) by exact Hgraphs. by fold graphs.
Qed.

Lemma graph_stages_clear_flag (X : Externals) (config_ : Config X) (header : Header)
    (graph : SceneGraphLayer X) (gvd_graph : GvdGraph X) (v : VizState) (u : unit) :
  gvd_graph_empty X gvd_graph = true →
  (length (gvd_graph_markers X config_ gvd_graph) < 2)%nat →
  let r := (visualizeGraph X config_ header graph ;;
            visualizeGvdGraph X config_ header gvd_graph) v in
  out r = Ok u → published_gvd_graph_ (st r) = false.
Proof.
  intros He Hm r. subst r.
  rewrite (bind_Ok _ _ v tt) by apply visualizeGraph_out. cbn [out st].
  unfold visualizeGvdGraph, publish_array, publish.
  rewrite gvd_graph_callback_run, He. unfold gvd_graph_markers in Hm.
  destruct (published_gvd_graph_ (st (visualizeGraph X config_ header graph v)))
    eqn:Hflag; simpl.
  - done.
  - destruct (makeGvdGraphMarkers X gvd_graph _ _ _) as [|m0 [|m1 rest]];
      simpl in *; [done | done | lia].
Qed.

(** The cluster callback behind the gate: what it sends goes to its own topic,
    and it writes the place-graph memory in no case. *)
Lemma cluster_publish_frame (X : Externals) (config_ : Config X) (header : Header)
    (gvd_graph : GvdGraph X) (info : CompressedNodeInfo X)
    (remapping : CompressedRemapping X) (v : VizState) :
  let c := publish_array "gvd_cluster_viz"
             (gvd_cluster_callback X config_ header (gvd_graph, info, remapping)) v in
  previous_spheres_ (st c) = previous_spheres_ v
  ∧ previous_labels_ (st c) = previous_labels_ v
  ∧ (published_gvd_graph_ (st c) = published_gvd_graph_ v
     ∨ gvd_graph_empty X gvd_graph = true ∧ published_gvd_graph_ (st c) = false)
  ∧ (∀ topic, topic ≠ "gvd_cluster_viz" → sent_on topic (evs c) = []).
Proof.
  intros c. subst c. unfold publish_array, publish.
  rewrite gvd_cluster_callback_run.
  destruct (gvd_graph_empty X gvd_graph && published_gvd_clusters_ v) eqn:Hretract.
  - apply andb_prop in Hretract as [He _]. cbn [out st evs map app].
    split_and!; try done; [by right|].
    intros topic Ht. simpl. by case_decide.
  - destruct (showGvdClusters X gvd_graph info remapping _ _ _)
      as [|m0 [|m1 rest]]; cbn [stamp_and_flag out st evs map app];
      split_and!; try done; try (by left);
      intros topic Ht; simpl; by repeat case_decide.
Qed.

(** X9. A tick with a compression extractor is the tick of a generic
    extractor over the same two graphs followed, unless that tick threw, by
    the cluster callback. The cluster stage adds messages on
    "gvd_cluster_viz" only and never changes the remembered sphere count or
    label ids; and, as long as the GVD graph builder returns fewer than two
    markers for an empty graph, it leaves [published_gvd_graph_] as the graph
    stage set it, although its retraction branch assigns that flag. *)
Theorem compression_tick_extends_generic_tick
    (X : Externals) (config_ : Config X) (timestamp_ns : N) (gvd : GvdLayer X)
    (graph : SceneGraphLayer X) (gvd_graph : GvdGraph X)
    (info : CompressedNodeInfo X) (remapping : CompressedRemapping X)
    (v : VizState) :
  (gvd_graph_empty X gvd_graph = true →
   (length (gvd_graph_markers X config_ gvd_graph) < 2)%nat) →
  let header := {| frame_id := world_frame config_; stamp := timestamp_ns |} in
  let rg := visualize X config_ timestamp_ns gvd
              (Some (GenericExtractor graph gvd_graph)) v in
  let rc := visualize X config_ timestamp_ns gvd
              (Some (CompressionExtractor graph gvd_graph info remapping)) v in
  rc = match out rg with
       | Throw e => rg
       | Ok _ =>
           let c := publish_array "gvd_cluster_viz"
                      (gvd_cluster_callback X config_ header
                         (gvd_graph, info, remapping)) (st rg) in
           mkRes (out c) (st c) (evs rg ++ evs c)
       end
  ∧ previous_spheres_ (st rc) = previous_spheres_ (st rg)
  ∧ previous_labels_ (st rc) = previous_labels_ (st rg)
  ∧ published_gvd_graph_ (st rc) = published_gvd_graph_ (st rg)
  ∧ (∀ topic, topic ≠ "gvd_cluster_viz" →
       sent_on topic (evs rc) = sent_on topic (evs rg)).
Proof.
  intros Hshape header rg rc. subst rg rc.
  rewrite !visualize_by_stages. fold header.
  cbn [graph_stages cluster_stage as_compression getGraph getGvdGraph].
  set (stage := (visualizeGraph X config_ header graph ;;
                 visualizeGvdGraph X config_ header gvd_graph) v).
  destruct (out stage) as [[]|e] eqn:Hstage; [|by split_and!].
  cbn [out st evs ret]. rewrite !app_nil_r.
  destruct (cluster_publish_frame X config_ header gvd_graph info remapping
              (st stage)) as (Hs & Hl & Hflag & Hsent).
  cbv zeta in Hs, Hl, Hflag, Hsent.
  split_and!.
  - by rewrite <- !app_assoc.
  - done.
  - done.
  - destruct Hflag as [Hflag|[He Hflag]]; [done|]. rewrite Hflag. symmetry.
    apply (graph_stages_clear_flag X config_ header graph gvd_graph v tt He
             (Hshape He) Hstage).
  - intros topic Ht. rewrite !app_assoc, (sent_on_app _ (_ ++ _)).
    by rewrite Hsent, app_nil_r.
Qed.

Lemma compression_tick_extends_generic_tick_witness :
  let cfg := Sample.config true in
  let graph := Sample.layer [1; 2]%N in
  let gvd_graph : GvdGraph Sample.X := [] in
  let info : CompressedNodeInfo Sample.X := tt in
  let remapping : CompressedRemapping Sample.X := tt in
  let v := with_published_gvd_clusters true
             (with_published_gvd_graph true (initial_state false)) in
  let header := {| frame_id := world_frame cfg; stamp := 9%N |} in
  let rg := visualize Sample.X cfg 9%N []
              (Some (GenericExtractor graph gvd_graph)) v in
  let rc := visualize Sample.X cfg 9%N []
              (Some (CompressionExtractor graph gvd_graph info remapping)) v in
  (gvd_graph_empty Sample.X gvd_graph = true →
   (length (gvd_graph_markers Sample.X cfg gvd_graph) < 2)%nat)
  ∧ rc = match out rg with
         | Throw e => rg
         | Ok _ =>
             let c := publish_array "gvd_cluster_viz"
                        (gvd_cluster_callback Sample.X cfg header
                           (gvd_graph, info, remapping)) (st rg) in
             mkRes (out c) (st c) (evs rg ++ evs c)
         end
  ∧ previous_spheres_ (st rc) = previous_spheres_ (st rg)
  ∧ previous_labels_ (st rc) = previous_labels_ (st rg)
  ∧ published_gvd_graph_ (st rc) = published_gvd_graph_ (st rg)
  ∧ (∀ topic, topic ≠ "gvd_cluster_viz" →
       sent_on topic (evs rc) = sent_on topic (evs rg)).
Proof.
  intros cfg graph gvd_graph info remapping v header rg rc.
  assert (Hshape : gvd_graph_empty Sample.X gvd_graph = true →
                   (length (gvd_graph_markers Sample.X cfg gvd_graph) < 2)%nat)
    by (intros _; vm_compute; lia).
  split; [exact Hshape|].
  exact (compression_tick_extends_generic_tick Sample.X cfg 9%N [] graph gvd_graph
           info remapping v Hshape).
Defined.

(** ** Reconfiguration *)

Section ReconfigurationFacts.

Variable X : Externals.
Variable F : ConfigFields X.
Hypothesis HF : struct_fields F.

Lemma pinned_constructed (loaded : Config X) :
  pinned X F loaded (constructed_config X F loaded).
Proof.
  destruct HF as (Hz & Hc & Hzc & _).
  unfold pinned, constructed_config. simpl. by rewrite Hzc, Hz, Hc.
Qed.

Lemma pinned_reconfigure (loaded c : Config X) (request : Reconfigure X) :
  pinned X F loaded c → pinned X F loaded (reconfigure X F c request).
Proof.
  destruct HF as (_ & _ & _ & _ & _ & _ & Hzmin & Hzmax & Hcmin & Hcmax).
  intros (Hz & Hc & Hw & Ht & Hs & Hu & Ho).
  destruct request as [l n|m n|g n]; unfold pinned; simpl.
  - by split_and!.
  - by split_and!.
  - rewrite Hzmax, Hzmin, Hcmax, Hcmin. by split_and!.
Qed.

Lemma bounds_synced_gvdConfigCb (config : GvdVisualizerConfig X) (level : N)
    (c : Config X) :
  bounds_synced X F (gvdConfigCb X F config level c)
  ∧ gvd_config (gvdConfigCb X F config level c) = config.
Proof.
  destruct HF as (_ & _ & _ & Hmin & Hmax & Hminmax & _).
  unfold bounds_synced, gvdConfigCb. simpl. by rewrite Hminmax, Hmin, Hmax.
Qed.

Lemma bounds_synced_reconfigure (c : Config X) (request : Reconfigure X) :
  bounds_synced X F c → bounds_synced X F (reconfigure X F c request).
Proof.
  intros Hs. destruct request as [l n|m n|g n]; simpl; [done | done |].
  apply bounds_synced_gvdConfigCb.
Qed.

Lemma bounds_synced_reconfigure_all (requests : list (Reconfigure X))
    (c : Config X) :
  bounds_synced X F c → bounds_synced X F (reconfigure_all X F c requests).
Proof.
  unfold reconfigure_all. revert c.
  induction requests as [|request rest IH]; intros c Hs; [done|].
  simpl. apply IH. by apply bounds_synced_reconfigure.
Qed.

Lemma gvd_config_reconfigure_all (requests : list (Reconfigure X)) (c : Config X) :
  Forall (λ request, match request with GvdVisualizer _ _ => False | _ => True end)
    requests →
  gvd_config (reconfigure_all X F c requests) = gvd_config c.
Proof.
  unfold reconfigure_all. revert c.
  induction requests as [|request rest IH]; intros c Hr; [done|].
  apply Forall_cons in Hr as [Hreq Hrest]. simpl. rewrite IH by done.
  by destruct request.
Qed.

End ReconfigurationFacts.

(** X10. Whatever was loaded from the parameter server, after construction
    [config_.graph.layer_z_step] is 0 and [color_places_by_distance] is true,
    and both stay so under every sequence of reconfigure requests; nor can any
    request change the world frame, the marker namespace or the block-outline
    settings. *)
Theorem reconfigure_keeps_constructor_overrides
    (X : Externals) (F : ConfigFields X) (loaded : Config X)
    (requests : list (Reconfigure X)) :
  struct_fields F →
  let c := reconfigure_all X F (constructed_config X F loaded) requests in
  layer_z_step F (graph_config c) = (0 # 1)%Q
  ∧ color_places_by_distance F (graph_config c) = true
  ∧ world_frame c = world_frame loaded
  ∧ topology_marker_ns c = topology_marker_ns loaded
  ∧ show_block_outlines c = show_block_outlines loaded
  ∧ use_gvd_block_outlines c = use_gvd_block_outlines loaded
  ∧ outline_scale c = outline_scale loaded.
Proof.
  intros HF c. subst c. unfold reconfigure_all.
  change (pinned X F loaded (foldl (reconfigure X F) (constructed_config X F loaded)
                               requests)).
  assert (Hinv : ∀ c0, pinned X F loaded c0 →
                       pinned X F loaded (foldl (reconfigure X F) c0 requests)).
  { induction requests as [|request rest IH]; intros c0 Hc0; [done|].
    simpl. apply IH. by apply pinned_reconfigure. }
  apply Hinv. by apply pinned_constructed.
Qed.

Lemma struct_fields_sample : struct_fields Sample2.fields.
Proof. unfold struct_fields. split_and!; by intros x []. Qed.

Lemma reconfigure_keeps_constructor_overrides_witness :
  let loaded := Sample2.loaded in
  let requests :=
    [GvdVisualizer (X := Sample2.X) ((1 # 2)%Q, (4 # 1)%Q) 0%N;
     GraphVisualizer (X := Sample2.X)
       {| use_label := false; use_sphere_marker := false;
          marker_scale := (2 # 10)%Q; marker_alpha := (1 # 2)%Q |} 1%N;
     VisualizerColormap (X := Sample2.X) tt 0%N] in
  let c := reconfigure_all Sample2.X Sample2.fields
             (constructed_config Sample2.X Sample2.fields loaded) requests in
  struct_fields Sample2.fields
  ∧ layer_z_step Sample2.fields (graph_config c) = (0 # 1)%Q
  ∧ color_places_by_distance Sample2.fields (graph_config c) = true
  ∧ world_frame c = world_frame loaded
  ∧ topology_marker_ns c = topology_marker_ns loaded
  ∧ show_block_outlines c = show_block_outlines loaded
  ∧ use_gvd_block_outlines c = use_gvd_block_outlines loaded
  ∧ outline_scale c = outline_scale loaded.
Proof.
  intros loaded requests c.
  split; [exact struct_fields_sample|].
  exact (reconfigure_keeps_constructor_overrides Sample2.X Sample2.fields loaded
           requests struct_fields_sample).
Defined.

(** X11. Once [gvdConfigCb] has run, the colormap bounds of the place graph
    equal the distance bounds of the current GVD configuration, and they stay
    equal under every further sequence of reconfigure requests, of whichever
    of the three kinds. *)
Theorem gvdConfigCb_keeps_colormap_bounds_synced
    (X : Externals) (F : ConfigFields X) (c : Config X)
    (config : GvdVisualizerConfig X) (level : N)
    (requests : list (Reconfigure X)) :
  struct_fields F →
  let c' := reconfigure_all X F (gvdConfigCb X F config level c) requests in
  places_colormap_min_distance F (graph_config c')
  = gvd_min_distance F (gvd_config c')
  ∧ places_colormap_max_distance F (graph_config c')
    = gvd_max_distance F (gvd_config c')
  ∧ (Forall (λ request, match request with GvdVisualizer _ _ => False | _ => True end)
       requests → gvd_config c' = config).
Proof.
  intros HF c'. subst c'.
  pose proof (bounds_synced_gvdConfigCb X F HF config level c) as [Hs Hg].
  destruct (bounds_synced_reconfigure_all X F HF requests _ Hs) as [Hmin Hmax].
  split_and!; [done | done |].
  intros Hrequests. by rewrite gvd_config_reconfigure_all.
Qed.

Lemma gvdConfigCb_keeps_colormap_bounds_synced_witness :
  let requests :=
    [GraphVisualizer (X := Sample2.X)
       {| use_label := false; use_sphere_marker := false;
          marker_scale := (2 # 10)%Q; marker_alpha := (1 # 2)%Q |} 1%N;
     GvdVisualizer (X := Sample2.X) ((1 # 2)%Q, (4 # 1)%Q) 0%N;
     VisualizerColormap (X := Sample2.X) tt 0%N] in
  let config : GvdVisualizerConfig Sample2.X := ((1 # 4)%Q, (2 # 1)%Q) in
  let c' := reconfigure_all Sample2.X Sample2.fields
              (gvdConfigCb Sample2.X Sample2.fields config 0%N Sample2.loaded)
              requests in
  struct_fields Sample2.fields
  ∧ places_colormap_min_distance Sample2.fields (graph_config c')
    = gvd_min_distance Sample2.fields (gvd_config c')
  ∧ places_colormap_max_distance Sample2.fields (graph_config c')
    = gvd_max_distance Sample2.fields (gvd_config c')
  ∧ (Forall (λ request, match request with GvdVisualizer _ _ => False | _ => True end)
       requests → gvd_config c' = config).
Proof.
  intros requests config c'.
  split; [exact struct_fields_sample|].
  exact (gvdConfigCb_keeps_colormap_bounds_synced Sample2.X Sample2.fields
           Sample2.loaded config 0%N requests struct_fields_sample).
Defined.

(** Before the first [gvdConfigCb] nothing relates the two pairs of bounds:
    the constructor does not copy them. *)
Example constructed_config_bounds_unsynced :
  ¬ bounds_synced Sample2.X Sample2.fields
      (constructed_config Sample2.X Sample2.fields Sample2.loaded).
Proof. intros [Hmin _]. vm_compute in Hmin. discriminate. Qed.

(** * The "worth sending" rule, tick by tick *)





Lemma restamped_length (header : Header) (markers : MarkerArray) :
  length (restamped header markers) = length markers.
Proof. by destruct markers as [|m0 [|m1 rest]]. Qed.

Section StageSends.

Variable X : Externals.
Variable config_ : Config X.










End StageSends.

(** One tick, for builders under which it runs to its end and shows a sphere
    for a graph that has places. *)
Section TickRule.

Variable X : Externals.
Variable config_ : Config X.
Variable timestamp_ns : N.
Variable gvd : GvdLayer X.
Variable extractor : option (Extractor X).
Variable v : VizState.

Local Abbreviation header :=
  {| frame_id := world_frame config_; stamp := timestamp_ns |}.
Local Abbreviation r := (visualize X config_ timestamp_ns gvd extractor v).

Hypothesis Hgraph :
  ∀ e, extractor = Some e →
       length (gvd_graph_markers X config_ (getGvdGraph X e)) ≠ 1%nat.
Hypothesis Hcluster :
  ∀ g info remapping, as_compression X extractor = Some (g, info, remapping) →
       length (cluster_markers X config_ g info remapping) ≠ 1%nat.
Hypothesis Hspheres :
  ∀ e, extractor = Some e → nodes X (getGraph X e) ≠ [] →
       freespace_spheres X config_ header (getGraph X e) ≠ [].








End TickRule.




(** On that tick six channels carry their payload, the three slices of the
    empty layer are skipped, and the outline marker goes out without points. *)
Example tick_rule_scenario :
  let cfg := Sample.config_with true true in
  let extractor :=
    Some (CompressionExtractor (Sample.layer [3; 5]%N) ([1; 2]%N : GvdGraph Sample.X)
            (tt : CompressedNodeInfo Sample.X) (tt : CompressedRemapping Sample.X)) in
  let r := visualize Sample.X cfg 7%N [] extractor (initial_state false) in
  map (λ c, (c.1.1, msg_empty c.1.2, c.2, length (sent_on c.1.1 (evs r))))
    (managed_channels Sample.X cfg (Sample.hdr 7) [] extractor (initial_state false))
  = [("esdf_viz", true, false, 0%nat); ("gvd_viz", true, false, 0%nat);
     ("surface_viz", true, false, 0%nat); ("graph_viz", false, false, 1%nat);
     ("freespace_viz", false, false, 2%nat);
     ("freespace_graph_viz", false, false, 1%nat);
     ("graph_label_viz", false, false, 2%nat);
     ("gvd_graph_viz", false, false, 1%nat);
     ("gvd_cluster_viz", false, false, 1%nat)]
  ∧ map (λ m, length (m_points m))
      (markers_on "voxel_block_viz" (evs r)) = [0%nat].
Proof. by vm_compute. Qed.
